(** * totp: a shallow embedding of [totp.py] and its command dispatcher

    The program keeps one secret per service in the system keyring and a
    list of known service names in a JSON file.  [main] runs one command
    per process: generate, add, update, remove or list.

    The embedding follows the source: the Python string methods that the
    secret prompt relies on, the keyring and the services file as the
    state of the world, the three classes, and [main] written in a small
    state-and-abort monad. *)

From Stdlib Require Import String Ascii List Lia.
From stdpp Require Import gmap strings list.

Set Default Proof Using "Type".

(** ** Python string methods *)

Module PyStr.

(** [s.startswith(p)] *)
Definition startswith (s p : string) : bool := String.prefix p s.

(** [s[n:]] *)
Fixpoint drop (n : nat) (s : string) : string :=
  match n, s with
  | 0, _ => s
  | S _, EmptyString => EmptyString
  | S n', String _ s' => drop n' s'
  end.

(** [s[:n]] *)
Fixpoint take (n : nat) (s : string) : string :=
  match n, s with
  | 0, _ => EmptyString
  | S _, EmptyString => EmptyString
  | S n', String c s' => String c (take n' s')
  end.

(** [s.find(sub)]: the lowest index where [sub] starts, [None] for -1. *)
Fixpoint find (sub s : string) : option nat :=
  if String.prefix sub s then Some 0
  else match s with
       | EmptyString => None
       | String _ s' => S <$> find sub s'
       end.

(** [sub in s] *)
Definition contains (sub s : string) : bool :=
  match find sub s with Some _ => true | None => false end.

(** [s.split(sep)] for a non-empty [sep]: cut at the leftmost occurrence
    and go on in what follows it.  Every cut consumes at least one
    character, so [S (length s)] rounds always suffice. *)
Fixpoint split_fuel (fuel : nat) (sep s : string) : list string :=
  match fuel with
  | 0 => [s]
  | S fuel' =>
      match find sep s with
      | None => [s]
      | Some i =>
          take i s :: split_fuel fuel' sep (drop (i + String.length sep) s)
      end
  end.

Definition split (sep s : string) : list string :=
  split_fuel (S (String.length s)) sep s.

(** [sep.join(l)] *)
Definition join (sep : string) (l : list string) : string :=
  String.concat sep l.

(** The text in front of the leftmost [sub], all of [s] when there is none. *)
Definition before (sub s : string) : string :=
  match find sub s with
  | Some i => take i s
  | None => s
  end.

(** The text behind the leftmost [sub]. *)
Definition after (sub s : string) : string :=
  match find sub s with
  | Some i => drop (i + String.length sub) s
  | None => EmptyString
  end.

End PyStr.

(** ** The world outside the process *)

(** The keyring maps a (service, username) pair to a password; the
    services file is absent or holds a JSON array of names; the clipboard
    holds the last copied text. *)
Record World := mkWorld {
  keyring : gmap (string * string) string;
  services_file : option (list string);
  clipboard : option string
}.

(** What the process writes: [print] on standard output, the logger's
    records at level INFO and ERROR. *)
Inductive Event :=
| Stdout (line : string)
| LogInfo (line : string)
| LogError (line : string).

Inductive Exception :=
| IndexError
| ValueError
| CalledProcessError.

(** How a command stops before the end of [main]: [exit(code)] or an
    exception that nothing catches. *)
Inductive Stop :=
| SystemExit (code : nat)
| Uncaught (e : Exception).

Record Machine := mkMachine {
  world : World;
  trace : list Event
}.

(** What stands outside the source: the [oathtool] program ([None] when
    it exits with an error), whether [import pyclip] succeeded, and the
    line typed at the [getpass] prompt. *)
Record Env := mkEnv {
  oathtool : string → option string;
  pyclip_loaded : bool;
  typed : string
}.

Inductive Action := Generate | Add | Update | Remove | ListAll.

(** The parsed command line. *)
Record Args := mkArgs {
  action : Action;
  service : option string;
  copy : bool;
  debug : bool
}.

(** ** The monad of [main]: state, output and early stop *)

Definition M (A : Type) : Type := Machine → (A + Stop) * Machine.

Global Instance M_ret : MRet M := λ A a m, (inl a, m).

Global Instance M_bind : MBind M := λ A B k c m,
  match c m with
  | (inl a, m') => k a m'
  | (inr stop, m') => (inr stop, m')
  end.

Definition exit {A} (code : nat) : M A := λ m, (inr (SystemExit code), m).

Definition raise {A} (e : Exception) : M A := λ m, (inr (Uncaught e), m).

Definition emit (e : Event) : M unit :=
  λ m, (inl tt, mkMachine (world m) (trace m ++ [e])).

Definition read_world : M World := λ m, (inl (world m), m).

Definition write_world (w : World) : M unit :=
  λ m, (inl tt, mkMachine w (trace m)).

(** [keyring.get_password] and [keyring.set_password] *)
Definition get_password (sv user : string) : M (option string) :=
  w ← read_world; mret (keyring w !! (sv, user)).

Definition set_password (sv user password : string) : M unit :=
  w ← read_world;
  write_world (mkWorld (<[(sv, user) := password]> (keyring w))
                       (services_file w) (clipboard w)).

(** [pyclip.copy] *)
Definition pyclip_copy (text : string) : M unit :=
  w ← read_world;
  write_world (mkWorld (keyring w) (services_file w) (Some text)).

(** ** class KeyManager *)

Module KeyManager.

Definition get_key (self : string) : M (option string) :=
  get_password self self.

Definition set_key (self : string) (key : string) : M unit :=
  set_password self self key.

End KeyManager.

(** ** class TOTPGenerator *)

Module TOTPGenerator.

(** [subprocess.check_output] raises when the program fails. *)
Definition generate (env : Env) (self : string) : M string :=
  match oathtool env self with
  | Some code => mret code
  | None => raise CalledProcessError
  end.

End TOTPGenerator.

(** ** class Services *)

(** [l.remove(x)]: drop the first [x], [None] for the ValueError of a
    list without [x]. *)
Fixpoint list_remove (x : string) (l : list string) : option (list string) :=
  match l with
  | [] => None
  | y :: l' =>
      if decide (y = x) then Some l'
      else cons y <$> list_remove x l'
  end.

Module Services.

(** The object is its [services] list; the directory only matters for
    where the file is. *)
Definition init : M (list string) :=
  w ← read_world;
  mret (match services_file w with
        | Some l => l
        | None => []
        end).

Definition get_services (self : list string) : list string := self.

Definition save (self : list string) : M unit :=
  w ← read_world;
  write_world (mkWorld (keyring w) (Some self) (clipboard w)).

Definition add_service (self : list string) (service : string)
  : M (list string) :=
  let self' := self ++ [service] in
  save self' ;; mret self'.

Definition remove_service (self : list string) (service : string)
  : M (list string) :=
  match list_remove service self with
  | Some self' => save self' ;; mret self'
  | None => raise ValueError
  end.

End Services.

(** ** main *)

(** [secret.split("secret=")[1].split("&")[0]], [None] for the IndexError
    of a list that is too short. *)
Definition url_secret (secret : string) : option string :=
  match PyStr.split "secret=" secret !! 1 with
  | Some part => PyStr.split "&" part !! 0
  | None => None
  end.

(** The prompt of add and of update with the two checks behind it; both
    branches of [main] hold the same statements. *)
Definition prompt_secret (env : Env) : M string :=
  let secret := typed env in
  if decide (secret = "") then
    emit (LogError "Secret or URL is required") ;; exit 1
  else if PyStr.startswith secret "otpauth://" then
    match url_secret secret with
    | Some secret' => mret secret'
    | None => raise IndexError
    end
  else mret secret.

(** [if key:] is false for [None] and for the empty string. *)
Definition truthy (key : option string) : bool :=
  match key with
  | Some k => bool_decide (k ≠ "")
  | None => false
  end.

(** One run of [main] on a parsed command line.  The [--debug] flag only
    lowers the logger's level, and [main] logs nothing below INFO, so it
    changes no output. *)
Definition main (env : Env) (args : Args) : M unit :=
  services ← Services.init;
  match action args with
  | ListAll =>
      emit (LogInfo ("Services: " +:+ PyStr.join ", " (Services.get_services services))) ;;
      exit 0
  | act =>
      match service args with
      | None => emit (LogError "Service name is required") ;; exit 1
      | Some name =>
          let key_manager := name in
          match act with
          | Generate =>
              key ← KeyManager.get_key key_manager;
              match key with
              | None => emit (Stdout "Key not found") ;; exit 1
              | Some key =>
                  totp ← TOTPGenerator.generate env key;
                  emit (LogInfo ("TOTP code for " +:+ name +:+ ": " +:+ totp)) ;;
                  if pyclip_loaded env && copy args then
                    if copy args then
                      pyclip_copy totp ;;
                      emit (LogInfo "Code copied to clipboard")
                    else mret tt
                  else mret tt
              end
          | Add =>
              secret ← prompt_secret env;
              key ← KeyManager.get_key key_manager;
              if truthy key then
                emit (LogError "Service already exists, use update instead") ;;
                exit 1
              else
                KeyManager.set_key key_manager secret ;;
                (if bool_decide (name ∈ Services.get_services services)
                 then mret services
                 else Services.add_service services name) ;;
                emit (LogInfo ("Key added for service " +:+ name))
          | Update =>
              secret ← prompt_secret env;
              key ← KeyManager.get_key key_manager;
              match key with
              | None => emit (LogError "Service not found") ;; exit 1
              | Some _ =>
                  KeyManager.set_key key_manager secret ;;
                  (if bool_decide (name ∈ Services.get_services services)
                   then mret services
                   else Services.add_service services name) ;;
                  emit (LogInfo ("Key updated for service " +:+ name))
              end
          | Remove =>
              key ← KeyManager.get_key key_manager;
              match key with
              | None => emit (LogError "Service not found") ;; exit 1
              | Some _ =>
                  KeyManager.set_key key_manager "" ;;
                  (if bool_decide (name ∈ Services.get_services services)
                   then Services.remove_service services name
                   else mret services) ;;
                  emit (LogInfo ("Key removed for service " +:+ name))
              end
          | ListAll => mret tt
          end
      end
  end.

(** ** Running one command *)

(** The outcome of a process: what it wrote, how it ended, and the world
    it leaves. *)
Record Outcome := mkOutcome {
  ended : option Stop;
  written : list Event;
  left : World
}.

Definition run (env : Env) (args : Args) (w : World) : Outcome :=
  match main env args (mkMachine w []) with
  | (inl _, m) => mkOutcome None (trace m) (world m)
  | (inr stop, m) => mkOutcome (Some stop) (trace m) (world m)
  end.

(** The exit status the shell sees: 0 at the end of [main], the code of
    [exit], 1 after a traceback. *)
Definition exit_status (o : Outcome) : nat :=
  match ended o with
  | None => 0
  | Some (SystemExit code) => code
  | Some (Uncaught _) => 1
  end.

(** The Service Index as a process loads it. *)
Definition index (w : World) : list string :=
  match services_file w with
  | Some l => l
  | None => []
  end.

(** The Credential Store entry of a service. *)
Definition stored (w : World) (name : string) : option string :=
  keyring w !! (name, name).

(** Command lines. *)
Definition cmd (a : Action) (name : string) : Args :=
  mkArgs a (Some name) false false.

(** ** Vocabulary of the properties *)

(** What the prompt hands on to the command: [None] when the typed line
    is refused as empty or breaks the URL parsing. *)
Definition effective_secret (typed : string) : option string :=
  if decide (typed = "") then None
  else if PyStr.startswith typed "otpauth://" then url_secret typed
  else Some typed.

(** The list after [l.remove(x)], the list itself where [x] is not in it. *)
Definition remove_first (x : string) (l : list string) : list string :=
  default l (list_remove x l).

(** The parameter value in the specification's words: the text between
    [secret=] and the next [&], or the end of the string. *)
Definition secret_parameter (url : string) : string :=
  PyStr.before "&" (PyStr.after "secret=" url).

(** How often a name is listed. *)
Definition listed (name : string) (l : list string) : nat :=
  count_occ string_dec l name.

(** The world after the secret of [name] is set and its name is listed. *)
Definition with_secret (name secret : string) (w : World) : World :=
  mkWorld (<[(name, name) := secret]> (keyring w))
          (if bool_decide (name ∈ index w) then services_file w
           else Some (index w ++ [name]))
          (clipboard w).

(** The world after the secret of [name] is cleared and its first listing
    is taken out. *)
Definition without_secret (name : string) (w : World) : World :=
  mkWorld (<[(name, name) := ""]> (keyring w))
          (if bool_decide (name ∈ index w)
           then Some (remove_first name (index w))
           else services_file w)
          (clipboard w).

(** ** Sample inputs *)

(** An environment without a working [oathtool] where [line] is typed at
    the prompt. *)
Definition typing (line : string) : Env := mkEnv (λ _, None) false line.

(** A world before the first command. *)
Definition fresh : World := mkWorld ∅ None None.

(** A world with one secret and a given services file. *)
Definition holding (name secret : string) (l : list string) : World :=
  mkWorld {[ (name, name) := secret ]} (Some l) None.

(** ** All the ways a command runs *)

(** One rule for each path through [main], with the conditions under
    which the path is taken and the outcome at its end. *)
Inductive Ran (env : Env) (w : World) : Args → Outcome → Prop :=
| ran_list sv c d :
    Ran env w (mkArgs ListAll sv c d)
      (mkOutcome (Some (SystemExit 0))
         [LogInfo ("Services: " +:+ PyStr.join ", " (index w))] w)
| ran_no_service a c d :
    a ≠ ListAll →
    Ran env w (mkArgs a None c d)
      (mkOutcome (Some (SystemExit 1)) [LogError "Service name is required"] w)
| ran_generate_absent name c d :
    stored w name = None →
    Ran env w (mkArgs Generate (Some name) c d)
      (mkOutcome (Some (SystemExit 1)) [Stdout "Key not found"] w)
| ran_generate_failed name c d k :
    stored w name = Some k → oathtool env k = None →
    Ran env w (mkArgs Generate (Some name) c d)
      (mkOutcome (Some (Uncaught CalledProcessError)) [] w)
| ran_generate_code name c d k totp :
    stored w name = Some k → oathtool env k = Some totp →
    pyclip_loaded env && c = false →
    Ran env w (mkArgs Generate (Some name) c d)
      (mkOutcome None
         [LogInfo ("TOTP code for " +:+ name +:+ ": " +:+ totp)] w)
| ran_generate_copy name c d k totp :
    stored w name = Some k → oathtool env k = Some totp →
    pyclip_loaded env && c = true →
    Ran env w (mkArgs Generate (Some name) c d)
      (mkOutcome None
         [LogInfo ("TOTP code for " +:+ name +:+ ": " +:+ totp);
          LogInfo "Code copied to clipboard"]
         (mkWorld (keyring w) (services_file w) (Some totp)))
| ran_prompt_empty a name c d :
    a = Add ∨ a = Update → typed env = "" →
    Ran env w (mkArgs a (Some name) c d)
      (mkOutcome (Some (SystemExit 1))
         [LogError "Secret or URL is required"] w)
| ran_prompt_broken a name c d :
    a = Add ∨ a = Update → typed env ≠ "" →
    effective_secret (typed env) = None →
    Ran env w (mkArgs a (Some name) c d)
      (mkOutcome (Some (Uncaught IndexError)) [] w)
| ran_add_taken name c d secret :
    effective_secret (typed env) = Some secret →
    truthy (stored w name) = true →
    Ran env w (mkArgs Add (Some name) c d)
      (mkOutcome (Some (SystemExit 1))
         [LogError "Service already exists, use update instead"] w)
| ran_add_free name c d secret :
    effective_secret (typed env) = Some secret →
    truthy (stored w name) = false →
    Ran env w (mkArgs Add (Some name) c d)
      (mkOutcome None [LogInfo ("Key added for service " +:+ name)]
         (with_secret name secret w))
| ran_update_absent name c d secret :
    effective_secret (typed env) = Some secret →
    stored w name = None →
    Ran env w (mkArgs Update (Some name) c d)
      (mkOutcome (Some (SystemExit 1)) [LogError "Service not found"] w)
| ran_update_present name c d secret k :
    effective_secret (typed env) = Some secret →
    stored w name = Some k →
    Ran env w (mkArgs Update (Some name) c d)
      (mkOutcome None [LogInfo ("Key updated for service " +:+ name)]
         (with_secret name secret w))
| ran_remove_absent name c d :
    stored w name = None →
    Ran env w (mkArgs Remove (Some name) c d)
      (mkOutcome (Some (SystemExit 1)) [LogError "Service not found"] w)
| ran_remove_present name c d k :
    stored w name = Some k →
    Ran env w (mkArgs Remove (Some name) c d)
      (mkOutcome None [LogInfo ("Key removed for service " +:+ name)]
         (without_secret name w)).

(** ** One process after the other *)

(** The program runs one command per process; the next process finds the
    keyring, the services file and the clipboard as the last one left
    them. *)
Fixpoint run_all (cmds : list (Env * Args)) (w : World) : World :=
  match cmds with
  | [] => w
  | (env, args) :: cmds' => run_all cmds' (left (run env args w))
  end.

(** ** How the services file and the keyring fit together *)

(** Every listed name has a keyring entry, be it the empty string. *)
Definition listed_have_entries (w : World) : Prop :=
  ∀ name, name ∈ index w → is_Some (stored w name).


(** An environment whose [oathtool] stand-in answers with the key it was
    given, with [pyclip] loaded, where [line] is typed at the prompt. *)
Definition echoing (line : string) : Env := mkEnv (λ key, Some key) true line.

(** * Properties *)

Example split_url :
  PyStr.split "secret=" "otpauth://totp/Example:alice?secret=JBSWY3DPEHPK3PXP&issuer=Example"
  = ["otpauth://totp/Example:alice?"; "JBSWY3DPEHPK3PXP&issuer=Example"].
Proof. reflexivity. Qed.

Example split_trailing : PyStr.split "&" "a&&b&" = ["a"; ""; "b"; ""].
Proof. reflexivity. Qed.

Example split_none : PyStr.split "&" "" = [""].
Proof. reflexivity. Qed.

(** ** Strings *)

(** [append] does not unfold under [simpl]; move a leading character out
    of it by conversion. *)
Ltac push_append :=
  repeat match goal with
         | |- context [String ?c ?s +:+ ?t] =>
             change (String c s +:+ t) with (String c (s +:+ t))
         | |- context [EmptyString +:+ ?t] =>
             change (EmptyString +:+ t) with t
         end.

Section pystr_facts.
Import PyStr.

Lemma length_drop n s : String.length (drop n s) = String.length s - n.
Proof.
  revert s. induction n as [|n IH]; intros [|c s]; simpl; auto with lia.
Qed.

Lemma take_drop n s : take n s +:+ drop n s = s.
Proof.
  revert s. induction n as [|n IH]; intros [|c s]; simpl; auto.
  push_append. by rewrite IH.
Qed.

Lemma prefix_length sub s :
  String.prefix sub s = true → String.length sub ≤ String.length s.
Proof.
  revert sub. induction s as [|c s IH]; intros [|a sub]; simpl; try done.
  - lia.
  - destruct (ascii_dec a c); [|done]. intros H. apply IH in H. lia.
Qed.

Lemma prefix_append sub s :
  String.prefix sub s = true → s = sub +:+ drop (String.length sub) s.
Proof.
  revert sub. induction s as [|c s IH]; intros [|a sub]; simpl; try done.
  destruct (ascii_dec a c) as [->|]; [|done].
  intros H. push_append. f_equal. by apply IH.
Qed.

Lemma find_cons sub c s :
  find sub (String c s)
  = if String.prefix sub (String c s) then Some 0 else S <$> find sub s.
Proof. reflexivity. Qed.

(** [find] returns an index where [sub] starts, and the lowest one. *)
Lemma find_Some sub s i :
  find sub s = Some i →
  String.prefix sub (drop i s) = true ∧
  i + String.length sub ≤ String.length s ∧
  ∀ j, j < i → String.prefix sub (drop j s) = false.
Proof.
  revert i. induction s as [|c s IH]; intros i.
  - destruct sub; simpl; [|done]. intros [= <-]. simpl.
    repeat split; auto with lia.
  - rewrite find_cons. destruct (String.prefix sub (String c s)) eqn:Hp.
    + intros [= <-]. split; [done|]. split; [|lia].
      apply prefix_length in Hp. lia.
    + destruct (find sub s) as [k|] eqn:Hk; [|done].
      intros [= <-]. destruct (IH k eq_refl) as (H1 & H2 & H3).
      split; [done|]. split; [simpl; lia|].
      intros [|j] Hj; [done|]. apply H3. lia.
Qed.

Lemma find_None sub s j :
  find sub s = None → String.prefix sub (drop j s) = false.
Proof.
  revert j. induction s as [|c s IH]; intros j.
  - destruct sub; simpl; [done|]. by destruct j.
  - rewrite find_cons. destruct (String.prefix sub (String c s)) eqn:Hp; [done|].
    destruct (find sub s) eqn:Hk; [done|]. intros _.
    destruct j as [|j]; [done|]. by apply IH.
Qed.

(** A string with [sub] in it is what stands before the leftmost [sub],
    then [sub], then what stands after it. *)
Lemma before_after sub s :
  contains sub s = true → s = before sub s +:+ sub +:+ after sub s.
Proof.
  unfold contains, before, after.
  destruct (find sub s) as [i|] eqn:Hf; [|done]. intros _.
  destruct (find_Some _ _ _ Hf) as (Hp & _ & _).
  apply prefix_append in Hp.
  rewrite <- (take_drop i s) at 1. f_equal. rewrite Hp at 1. f_equal.
  clear. revert s. induction i as [|i IH]; intros s; simpl.
  - done.
  - destruct s as [|c s]; simpl; [|apply IH].
    by destruct (String.length sub).
Qed.

(** Enough fuel: more rounds than [S (length s)] change nothing. *)
Lemma split_fuel_enough sep s fuel :
  sep ≠ EmptyString → String.length s < fuel →
  split_fuel fuel sep s = split sep s.
Proof.
  intros Hsep. unfold split.
  assert (∀ f1 f2 t, String.length t < f1 → String.length t < f2 →
            split_fuel f1 sep t = split_fuel f2 sep t) as H.
  { induction f1 as [|f1 IH]; intros f2 t H1 H2; [lia|].
    destruct f2 as [|f2]; [lia|]. simpl.
    destruct (find sep t) as [i|] eqn:Hf; [|done].
    f_equal. destruct (find_Some _ _ _ Hf) as (_ & Hle & _).
    assert (0 < String.length sep) by (destruct sep; simpl; [done|lia]).
    apply IH; rewrite length_drop; lia. }
  intros Hlt. apply H; lia.
Qed.

Lemma split_head sep s : split sep s !! 0 = Some (before sep s).
Proof. unfold split, before. simpl. by destruct (find sep s). Qed.

Lemma split_second sep s :
  sep ≠ EmptyString → contains sep s = true →
  split sep s !! 1 = Some (before sep (after sep s)).
Proof.
  intros Hsep. unfold contains, after, split at 1. simpl.
  destruct (find sep s) as [i|] eqn:Hf; [|done]. intros _. simpl.
  destruct (find_Some _ _ _ Hf) as (_ & Hle & _).
  assert (0 < String.length sep) by (destruct sep; simpl; [done|lia]).
  rewrite split_fuel_enough; [apply split_head|done|].
  rewrite length_drop. lia.
Qed.

Lemma split_without sep s : contains sep s = false → split sep s = [s].
Proof.
  unfold contains, split. simpl. by destruct (find sep s).
Qed.

(** *** Cutting in front of a separator *)

Lemma before_nil sub : before sub EmptyString = EmptyString.
Proof. by destruct sub. Qed.

Lemma before_cons sub c s :
  before sub (String c s)
  = if String.prefix sub (String c s) then EmptyString
    else String c (before sub s).
Proof.
  unfold before. rewrite find_cons.
  destruct (String.prefix sub (String c s)); [done|].
  by destruct (find sub s).
Qed.

Lemma contains_cons sub c s :
  contains sub (String c s)
  = String.prefix sub (String c s) || contains sub s.
Proof.
  unfold contains. rewrite find_cons.
  destruct (String.prefix sub (String c s)); [done|].
  by destruct (find sub s).
Qed.

Lemma prefix_char a c s :
  String.prefix (String a EmptyString) (String c s) = bool_decide (a = c).
Proof.
  simpl. destruct (ascii_dec a c); case_bool_decide; try done.
  by destruct s.
Qed.

(** A prefix without the character [a] ends before the first [a]. *)
Lemma prefix_before_char a sub s :
  contains (String a EmptyString) sub = false →
  String.prefix sub s = true →
  String.prefix sub (before (String a EmptyString) s) = true.
Proof.
  revert s. induction sub as [|b sub IH]; intros s Hfree Hp.
  { by destruct (before _ s). }
  destruct s as [|c s]; [done|].
  rewrite contains_cons, prefix_char in Hfree.
  apply orb_false_elim in Hfree as [Hab Hfree].
  apply bool_decide_eq_false in Hab.
  simpl in Hp. destruct (ascii_dec b c) as [<-|]; [|done].
  rewrite before_cons, prefix_char, bool_decide_eq_false_2 by done.
  simpl. destruct (ascii_dec b b); [|done]. by apply IH.
Qed.

(** Cutting at [sub] first changes nothing in front of the first [a]
    when [sub] has no [a] in it and does not occur in front of it. *)
Lemma before_char_before a sub s :
  contains (String a EmptyString) sub = false →
  contains sub (before (String a EmptyString) s) = false →
  before (String a EmptyString) (before sub s)
  = before (String a EmptyString) s.
Proof.
  intros Hfree. induction s as [|c s IH]; intros Hno.
  - by rewrite !before_nil.
  - rewrite (before_cons (String a EmptyString)), prefix_char in Hno |- *.
    case_bool_decide as Hac.
    + subst c. rewrite before_cons.
      destruct (String.prefix sub (String a s)) eqn:Hp.
      * by rewrite before_nil.
      * by rewrite before_cons, prefix_char, bool_decide_eq_true_2.
    + rewrite contains_cons in Hno.
      apply orb_false_elim in Hno as [Hp Hno].
      rewrite before_cons.
      destruct (String.prefix sub (String c s)) eqn:Hp'.
      * apply (prefix_before_char a) in Hp'; [|done].
        rewrite before_cons, prefix_char, bool_decide_eq_false_2 in Hp' by done.
        congruence.
      * rewrite before_cons, prefix_char, bool_decide_eq_false_2 by done.
        by rewrite IH.
Qed.

End pystr_facts.

(** ** The secret of a provisioning URL *)

Lemma url_secret_found url :
  PyStr.contains "secret=" url = true →
  url_secret url
  = Some (PyStr.before "&" (PyStr.before "secret=" (PyStr.after "secret=" url))).
Proof.
  intros Hc. unfold url_secret.
  rewrite split_second by done. apply split_head.
Qed.

Lemma url_secret_missing url :
  PyStr.contains "secret=" url = false → url_secret url = None.
Proof. intros Hc. unfold url_secret. by rewrite split_without. Qed.

Lemma startswith_nonempty s p :
  p ≠ EmptyString → PyStr.startswith s p = true → s ≠ EmptyString.
Proof. intros Hp Hs ->. by destruct p. Qed.

(** ** Lists *)

Lemma list_remove_Some x l : x ∈ l → ∃ l', list_remove x l = Some l'.
Proof.
  induction l as [|y l IH]; [by intros ?%elem_of_nil|].
  intros Hin. simpl. destruct (decide (y = x)); [by eexists|].
  apply elem_of_cons in Hin as [->|Hin]; [done|].
  destruct (IH Hin) as [l' ->]. by eexists.
Qed.

(** ** One command, start to end *)

Section run_facts.
Context (env : Env) (w : World).

Ltac run_unfold :=
  unfold run, main, prompt_secret, effective_secret,
    KeyManager.get_key, KeyManager.set_key, get_password, set_password,
    Services.init, Services.add_service, Services.remove_service,
    Services.save, Services.get_services, TOTPGenerator.generate,
    pyclip_copy, read_world, write_world, emit, exit, raise,
    mbind, M_bind, mret, M_ret, with_secret, without_secret, stored in *;
  simpl in *; fold (index w) in *.

Lemma run_list sv c d :
  run env (mkArgs ListAll sv c d) w
  = mkOutcome (Some (SystemExit 0))
      [LogInfo ("Services: " +:+ PyStr.join ", " (index w))] w.
Proof. by run_unfold. Qed.

Lemma run_no_service a c d :
  a ≠ ListAll →
  run env (mkArgs a None c d) w
  = mkOutcome (Some (SystemExit 1)) [LogError "Service name is required"] w.
Proof. intros Ha. run_unfold. by destruct a. Qed.

Lemma run_prompt_empty a name c d :
  a = Add ∨ a = Update → typed env = "" →
  run env (mkArgs a (Some name) c d) w
  = mkOutcome (Some (SystemExit 1)) [LogError "Secret or URL is required"] w.
Proof.
  intros Ha Ht. run_unfold. rewrite Ht. by destruct Ha as [-> | ->].
Qed.

Lemma run_prompt_broken a name c d :
  a = Add ∨ a = Update → typed env ≠ "" →
  effective_secret (typed env) = None →
  run env (mkArgs a (Some name) c d) w
  = mkOutcome (Some (Uncaught IndexError)) [] w.
Proof.
  intros Ha Ht He. run_unfold.
  destruct (decide (typed env = "")); [done|].
  destruct (PyStr.startswith (typed env) "otpauth://"); [|done].
  rewrite He. by destruct Ha as [-> | ->].
Qed.

(** The prompt hands on the effective secret and leaves no trace. *)
Ltac prompt_given He :=
  destruct (decide (typed env = "")); [done|];
  destruct (PyStr.startswith (typed env) "otpauth://");
  [rewrite He|injection He as <-]; simpl.

Lemma run_add_taken name c d secret :
  effective_secret (typed env) = Some secret →
  truthy (stored w name) = true →
  run env (mkArgs Add (Some name) c d) w
  = mkOutcome (Some (SystemExit 1))
      [LogError "Service already exists, use update instead"] w.
Proof.
  intros He Hk. run_unfold. prompt_given He; by rewrite Hk.
Qed.

Lemma run_add_free name c d secret :
  effective_secret (typed env) = Some secret →
  truthy (stored w name) = false →
  run env (mkArgs Add (Some name) c d) w
  = mkOutcome None [LogInfo ("Key added for service " +:+ name)]
      (with_secret name secret w).
Proof.
  intros He Hk. run_unfold.
  prompt_given He; rewrite Hk; fold (index w); by case_bool_decide.
Qed.

Lemma run_update_absent name c d secret :
  effective_secret (typed env) = Some secret →
  stored w name = None →
  run env (mkArgs Update (Some name) c d) w
  = mkOutcome (Some (SystemExit 1)) [LogError "Service not found"] w.
Proof.
  intros He Hk. run_unfold. prompt_given He; by rewrite Hk.
Qed.

Lemma run_update_present name c d secret k :
  effective_secret (typed env) = Some secret →
  stored w name = Some k →
  run env (mkArgs Update (Some name) c d) w
  = mkOutcome None [LogInfo ("Key updated for service " +:+ name)]
      (with_secret name secret w).
Proof.
  intros He Hk. run_unfold.
  prompt_given He; rewrite Hk; fold (index w); by case_bool_decide.
Qed.

Lemma run_remove_absent name c d :
  stored w name = None →
  run env (mkArgs Remove (Some name) c d) w
  = mkOutcome (Some (SystemExit 1)) [LogError "Service not found"] w.
Proof. intros Hk. run_unfold. by rewrite Hk. Qed.

Lemma run_remove_present name c d k :
  stored w name = Some k →
  run env (mkArgs Remove (Some name) c d) w
  = mkOutcome None [LogInfo ("Key removed for service " +:+ name)]
      (without_secret name w).
Proof.
  intros Hk. run_unfold. rewrite Hk.
  case_bool_decide as Hin; [|done].
  unfold remove_first.
  by destruct (list_remove_Some name (index w) Hin) as [l' ->].
Qed.

Lemma run_generate_absent name c d :
  stored w name = None →
  run env (mkArgs Generate (Some name) c d) w
  = mkOutcome (Some (SystemExit 1)) [Stdout "Key not found"] w.
Proof. intros Hk. run_unfold. by rewrite Hk. Qed.

Lemma run_generate_failed name c d k :
  stored w name = Some k → oathtool env k = None →
  run env (mkArgs Generate (Some name) c d) w
  = mkOutcome (Some (Uncaught CalledProcessError)) [] w.
Proof. intros Hk Ho. run_unfold. by rewrite Hk, Ho. Qed.

Lemma run_generate_code name c d k totp :
  stored w name = Some k → oathtool env k = Some totp →
  run env (mkArgs Generate (Some name) c d) w
  = if pyclip_loaded env && c
    then mkOutcome None
           [LogInfo ("TOTP code for " +:+ name +:+ ": " +:+ totp);
            LogInfo "Code copied to clipboard"]
           (mkWorld (keyring w) (services_file w) (Some totp))
    else mkOutcome None
           [LogInfo ("TOTP code for " +:+ name +:+ ": " +:+ totp)] w.
Proof.
  intros Hk Ho. run_unfold. rewrite Hk, Ho.
  by destruct (pyclip_loaded env), c.
Qed.

End run_facts.

(** ** The two stores after a command *)

Lemma remove_first_absent x l : x ∉ l → remove_first x l = l.
Proof.
  unfold remove_first. induction l as [|y l IH]; [done|].
  intros Hin. apply not_elem_of_cons in Hin as [Hne Hin]. simpl.
  destruct (decide (y = x)); [done|].
  specialize (IH Hin). destruct (list_remove x l); simpl in *; congruence.
Qed.

Lemma remove_first_cons x y l :
  remove_first x (y :: l) = if decide (y = x) then l else y :: remove_first x l.
Proof.
  unfold remove_first. simpl. destruct (decide (y = x)); [done|].
  by destruct (list_remove x l).
Qed.

Lemma listed_remove_first x l :
  listed x (remove_first x l) = pred (listed x l).
Proof.
  unfold listed. induction l as [|y l IH]; [done|].
  rewrite remove_first_cons. simpl.
  destruct (decide (y = x)) as [->|Hne].
  - by destruct (string_dec x x).
  - simpl. by destruct (string_dec y x).
Qed.

Lemma elem_of_remove_first x y l : y ∈ remove_first x l → y ∈ l.
Proof.
  induction l as [|z l IH]; [done|]. rewrite remove_first_cons.
  destruct (decide (z = x)); [by right|].
  intros [->|Hin]%elem_of_cons; [by left|].
  right. by apply IH.
Qed.

Lemma NoDup_remove_first x l : NoDup l → NoDup (remove_first x l).
Proof.
  induction 1 as [|z l Hz Hnd IH]; [constructor|].
  rewrite remove_first_cons.
  destruct (decide (z = x)); [done|].
  apply NoDup_cons. split; [|done].
  by intros Hin%elem_of_remove_first.
Qed.

Lemma listed_elem_of x l : x ∈ l ↔ 0 < listed x l.
Proof. unfold listed. rewrite list_elem_of_In. apply count_occ_In. Qed.

Lemma listed_snoc x l : listed x (l ++ [x]) = S (listed x l).
Proof.
  unfold listed. rewrite count_occ_app. simpl.
  destruct (string_dec x x); [lia|done].
Qed.

Lemma index_with_secret name secret w :
  index (with_secret name secret w)
  = if bool_decide (name ∈ index w) then index w else index w ++ [name].
Proof. unfold with_secret, index at 1. simpl. by case_bool_decide. Qed.

Lemma index_without_secret name w :
  index (without_secret name w) = remove_first name (index w).
Proof.
  unfold without_secret, index at 1. simpl.
  case_bool_decide; [done|]. by rewrite remove_first_absent.
Qed.

Lemma stored_with_secret name secret w :
  stored (with_secret name secret w) name = Some secret.
Proof. apply lookup_insert_eq. Qed.

Lemma stored_without_secret name w :
  stored (without_secret name w) name = Some "".
Proof. apply lookup_insert_eq. Qed.

Lemma listed_with_secret name secret w :
  name ∈ index (with_secret name secret w).
Proof.
  rewrite index_with_secret. case_bool_decide; [done|].
  apply elem_of_app. right. by apply list_elem_of_singleton.
Qed.

(** A prompt that hands on no secret ends add and update with status 1
    and both stores as they were. *)
Lemma prompt_failure_harmless env w a name c d :
  a = Add ∨ a = Update → effective_secret (typed env) = None →
  exit_status (run env (mkArgs a (Some name) c d) w) = 1 ∧
  left (run env (mkArgs a (Some name) c d) w) = w.
Proof.
  intros Ha He. destruct (decide (typed env = "")) as [Ht|Ht].
  - by rewrite run_prompt_empty.
  - by rewrite run_prompt_broken.
Qed.

(** Add and update that reach the end of [main] have set a secret. *)
Lemma finished_with_secret env w a name c d :
  a = Add ∨ a = Update →
  ended (run env (mkArgs a (Some name) c d) w) = None →
  ∃ secret, effective_secret (typed env) = Some secret ∧
    left (run env (mkArgs a (Some name) c d) w) = with_secret name secret w.
Proof.
  intros Ha Hend.
  destruct (effective_secret (typed env)) as [secret|] eqn:He.
  - exists secret. split; [done|]. destruct Ha as [-> | ->].
    + destruct (truthy (stored w name)) eqn:Hk.
      * by rewrite (run_add_taken _ _ _ _ _ secret) in Hend.
      * by rewrite (run_add_free _ _ _ _ _ secret).
    + destruct (stored w name) as [k|] eqn:Hk.
      * by rewrite (run_update_present _ _ _ _ _ secret k).
      * by rewrite (run_update_absent _ _ _ _ _ secret) in Hend.
  - destruct (decide (typed env = "")) as [Ht|Ht].
    + by rewrite run_prompt_empty in Hend.
    + by rewrite run_prompt_broken in Hend.
Qed.

(** * The claims *)

(** ** generate *)

(** C1: generate on a service whose keyring entry is the empty string, the
    state remove leaves.  The source tests [key is None], so the empty key
    goes to [oathtool]: "Key not found" is never printed; the command logs
    whatever code the tool returns and ends with status 0, or dies from the
    tool's error. *)
Theorem generate_cleared_entry env c d :
  let o := run env (mkArgs Generate (Some "github") c d)
               (holding "github" "" []) in
  stored (holding "github" "" []) "github" = Some "" ∧
  (Stdout "Key not found" ∉ written o) ∧
  match oathtool env "" with
  | Some totp =>
      exit_status o = 0 ∧
      written o !! 0 = Some (LogInfo ("TOTP code for github: " +:+ totp))
  | None =>
      ended o = Some (Uncaught CalledProcessError) ∧ written o = []
  end.
Proof.
  intros o. split; [done|].
  destruct (oathtool env "") as [totp|] eqn:Ho; subst o.
  - rewrite (run_generate_code _ _ _ _ _ "" totp) by done.
    destruct (pyclip_loaded env && c); (split; [|done]); simpl;
      intros Hin; repeat (apply elem_of_cons in Hin as [Hin|Hin]; [done|]);
      by apply elem_of_nil in Hin.
  - rewrite (run_generate_failed _ _ _ _ _ "") by done.
    split; [|done]. simpl. by intros ?%elem_of_nil.
Qed.

(** ** add *)

(** C2, as the source has it: when the entry of the service holds a
    non-empty secret and the prompt hands on a secret, add logs "Service
    already exists, use update instead", exits with status 1 and leaves
    the keyring, the services file and the clipboard as they were. *)
Theorem add_taken_rejected env w name c d k secret :
  stored w name = Some k → k ≠ "" →
  effective_secret (typed env) = Some secret →
  let o := run env (mkArgs Add (Some name) c d) w in
  written o = [LogError "Service already exists, use update instead"] ∧
  ended o = Some (SystemExit 1) ∧
  exit_status o = 1 ∧
  left o = w.
Proof.
  intros Hk Hne He o. subst o.
  rewrite (run_add_taken _ _ _ _ _ secret); [done..|].
  rewrite Hk. simpl. by apply bool_decide_eq_true.
Qed.

Lemma add_taken_rejected_witness :
  stored (holding "github" "JBSWY3DPEHPK3PXP" ["github"]) "github"
    = Some "JBSWY3DPEHPK3PXP" ∧
  effective_secret (typed (typing "GEZDGNBVGY3TQOJQ")) = Some "GEZDGNBVGY3TQOJQ" ∧
  left (run (typing "GEZDGNBVGY3TQOJQ") (cmd Add "github")
          (holding "github" "JBSWY3DPEHPK3PXP" ["github"]))
    = holding "github" "JBSWY3DPEHPK3PXP" ["github"].
Proof.
  split; [reflexivity|]. split; [reflexivity|].
  apply (add_taken_rejected (typing "GEZDGNBVGY3TQOJQ")
           (holding "github" "JBSWY3DPEHPK3PXP" ["github"]) "github"
           false false "JBSWY3DPEHPK3PXP" "GEZDGNBVGY3TQOJQ");
    [reflexivity|discriminate|reflexivity].
Defined.

(** C2 as stated fails on an empty line at the prompt: the prompt's own
    check comes first, so the error is "Secret or URL is required". *)
Lemma add_taken_empty_line :
  let w := holding "github" "JBSWY3DPEHPK3PXP" ["github"] in
  let o := run (typing "") (cmd Add "github") w in
  stored w "github" = Some "JBSWY3DPEHPK3PXP" ∧
  written o = [LogError "Secret or URL is required"] ∧
  written o ≠ [LogError "Service already exists, use update instead"].
Proof. split; [reflexivity|]. split; [reflexivity|]. discriminate. Qed.

(** ** update *)

(** C3, as the source has it: once the prompt hands on a secret, update
    on a service without a keyring entry logs "Service not found", exits
    with status 1 and changes nothing; on a service with an entry, empty
    or not, it overwrites the secret and the name is listed in the
    services file afterwards, appended when it was missing. *)
Theorem update_after_prompt env w name c d secret :
  effective_secret (typed env) = Some secret →
  let o := run env (mkArgs Update (Some name) c d) w in
  match stored w name with
  | None =>
      written o = [LogError "Service not found"] ∧
      ended o = Some (SystemExit 1) ∧
      left o = w
  | Some _ =>
      ended o = None ∧
      keyring (left o) = <[(name, name) := secret]> (keyring w) ∧
      stored (left o) name = Some secret ∧
      index (left o)
        = (if bool_decide (name ∈ index w) then index w
           else index w ++ [name]) ∧
      name ∈ index (left o)
  end.
Proof.
  intros He o. subst o. destruct (stored w name) as [k|] eqn:Hk.
  - rewrite (run_update_present _ _ _ _ _ secret k) by done. simpl.
    split; [done|]. split; [done|].
    split; [apply stored_with_secret|].
    split; [apply index_with_secret|apply listed_with_secret].
  - by rewrite (run_update_absent _ _ _ _ _ secret).
Qed.

Lemma update_after_prompt_witness :
  effective_secret (typed (typing "GEZDGNBVGY3TQOJQ")) = Some "GEZDGNBVGY3TQOJQ" ∧
  (written (run (typing "GEZDGNBVGY3TQOJQ") (cmd Update "github") fresh)
     = [LogError "Service not found"] ∧
   left (run (typing "GEZDGNBVGY3TQOJQ") (cmd Update "github") fresh) = fresh) ∧
  (stored (left (run (typing "GEZDGNBVGY3TQOJQ") (cmd Update "github")
                   (holding "github" "JBSWY3DPEHPK3PXP" []))) "github"
     = Some "GEZDGNBVGY3TQOJQ" ∧
   index (left (run (typing "GEZDGNBVGY3TQOJQ") (cmd Update "github")
                  (holding "github" "JBSWY3DPEHPK3PXP" [])))
     = ["github"]).
Proof.
  split; [reflexivity|]. split.
  - destruct (update_after_prompt (typing "GEZDGNBVGY3TQOJQ") fresh "github"
                false false "GEZDGNBVGY3TQOJQ" eq_refl) as (Hw & _ & Hl).
    exact (conj Hw Hl).
  - destruct (update_after_prompt (typing "GEZDGNBVGY3TQOJQ")
                (holding "github" "JBSWY3DPEHPK3PXP" []) "github"
                false false "GEZDGNBVGY3TQOJQ" eq_refl)
      as (_ & _ & Hs & Hi & _).
    exact (conj Hs Hi).
Defined.

(** C3 as stated fails on an empty line at the prompt: update on an
    absent service then reports "Secret or URL is required". *)
Lemma update_absent_empty_line :
  let o := run (typing "") (cmd Update "github") fresh in
  stored fresh "github" = None ∧
  written o = [LogError "Secret or URL is required"] ∧
  written o ≠ [LogError "Service not found"].
Proof. split; [reflexivity|]. split; [reflexivity|]. discriminate. Qed.

(** ** The prompt *)

(** C4, as the source has it: for a typed line that starts with
    [otpauth://] and contains [secret=], the secret add and update store
    is the text behind the first [secret=] up to the next [&] or the next
    [secret=], whichever comes first, or the end of the line.  Where no
    second [secret=] stands in front of that [&], this is the text between
    [secret=] and the next [&], or the end of the line. *)
Theorem url_secret_stored env w name c d :
  PyStr.startswith (typed env) "otpauth://" = true →
  PyStr.contains "secret=" (typed env) = true →
  let cut := PyStr.before "&"
               (PyStr.before "secret=" (PyStr.after "secret=" (typed env))) in
  effective_secret (typed env) = Some cut ∧
  (PyStr.contains "secret=" (secret_parameter (typed env)) = false →
   cut = secret_parameter (typed env)) ∧
  (truthy (stored w name) = false →
   stored (left (run env (mkArgs Add (Some name) c d) w)) name = Some cut) ∧
  (is_Some (stored w name) →
   stored (left (run env (mkArgs Update (Some name) c d) w)) name = Some cut).
Proof.
  intros Hs Hc cut.
  assert (effective_secret (typed env) = Some cut) as He.
  { unfold effective_secret.
    destruct (decide (typed env = "")) as [Ht|_].
    - by apply startswith_nonempty in Hs.
    - rewrite Hs. by apply url_secret_found. }
  split; [done|]. split; [|split].
  - intros Hno. by apply before_char_before.
  - intros Hk. rewrite (run_add_free _ _ _ _ _ cut) by done.
    apply stored_with_secret.
  - intros [k Hk]. rewrite (run_update_present _ _ _ _ _ cut k) by done.
    apply stored_with_secret.
Qed.

Lemma url_secret_stored_witness :
  let line := "otpauth://totp/Example:alice?secret=JBSWY3DPEHPK3PXP&issuer=Example" in
  PyStr.startswith line "otpauth://" = true ∧
  PyStr.contains "secret=" line = true ∧
  secret_parameter line = "JBSWY3DPEHPK3PXP" ∧
  stored (left (run (typing line) (cmd Add "github") fresh)) "github"
    = Some "JBSWY3DPEHPK3PXP".
Proof.
  intros line. split; [reflexivity|]. split; [reflexivity|].
  split; [reflexivity|].
  destruct (url_secret_stored (typing line) fresh "github" false false
              eq_refl eq_refl) as (_ & _ & Hadd & _).
  exact (Hadd eq_refl).
Defined.

(** C4 as stated fails where a second [secret=] follows the first before
    any [&]: the source cuts there, the text between [secret=] and the
    next [&] runs on.  The text behind the last [secret=] differs too. *)
Lemma url_second_secret :
  let line := "otpauth://totp/a?secret=ABsecret=CD&x=1" in
  let o := run (typing line) (cmd Add "a") fresh in
  PyStr.startswith line "otpauth://" = true ∧
  PyStr.contains "secret=" line = true ∧
  secret_parameter line = "ABsecret=CD" ∧
  stored (left o) "a" = Some "AB" ∧
  stored (left o) "a" ≠ Some (secret_parameter line).
Proof. repeat (split; [reflexivity|]). discriminate. Qed.

(** C5: a line that starts with [otpauth://] and has no [secret=] in it.
    The list [split] returns has one element, so the subscript 1 raises
    IndexError, which nothing catches: add and update log no error and die
    with a traceback, both stores as they were. *)
Theorem url_without_secret_uncaught env w a name c d :
  a = Add ∨ a = Update →
  PyStr.startswith (typed env) "otpauth://" = true →
  PyStr.contains "secret=" (typed env) = false →
  run env (mkArgs a (Some name) c d) w
  = mkOutcome (Some (Uncaught IndexError)) [] w.
Proof.
  intros Ha Hs Hc.
  assert (typed env ≠ "") as Ht
    by by apply (startswith_nonempty _ "otpauth://").
  apply run_prompt_broken; [done..|].
  unfold effective_secret. destruct (decide (typed env = "")); [done|].
  rewrite Hs. by apply url_secret_missing.
Qed.

Lemma url_without_secret_uncaught_witness :
  let line := "otpauth://totp/Example:alice?issuer=Example" in
  PyStr.startswith line "otpauth://" = true ∧
  PyStr.contains "secret=" line = false ∧
  run (typing line) (cmd Add "github") fresh
    = mkOutcome (Some (Uncaught IndexError)) [] fresh ∧
  run (typing line) (cmd Update "github")
      (holding "github" "JBSWY3DPEHPK3PXP" ["github"])
    = mkOutcome (Some (Uncaught IndexError)) []
        (holding "github" "JBSWY3DPEHPK3PXP" ["github"]).
Proof.
  intros line. split; [reflexivity|]. split; [reflexivity|]. split.
  - apply (url_without_secret_uncaught (typing line) fresh Add "github");
      [by left|reflexivity..].
  - apply (url_without_secret_uncaught (typing line) _ Update "github");
      [by right|reflexivity..].
Defined.

(** ** remove *)

(** C6: remove on a service with a keyring entry reaches the end of
    [main], sets the entry to the empty string, so that it is still there,
    and takes the first listing of the name out of the services file; a
    file that does not list the name stays as it is, and a name listed at
    most once is listed no more. *)
Theorem remove_clears_and_unlists env w name c d k :
  stored w name = Some k →
  let o := run env (mkArgs Remove (Some name) c d) w in
  ended o = None ∧
  keyring (left o) = <[(name, name) := ""]> (keyring w) ∧
  stored (left o) name = Some "" ∧
  index (left o) = remove_first name (index w) ∧
  listed name (index (left o)) = pred (listed name (index w)) ∧
  (name ∉ index w → services_file (left o) = services_file w) ∧
  (listed name (index w) ≤ 1 → name ∉ index (left o)).
Proof.
  intros Hk o. subst o. rewrite (run_remove_present _ _ _ _ _ k) by done.
  simpl. split; [done|]. split; [done|].
  split; [apply stored_without_secret|].
  rewrite index_without_secret. split; [done|].
  split; [apply listed_remove_first|]. split.
  - intros Hin. by rewrite bool_decide_eq_false_2.
  - intros Hle Hin%listed_elem_of. rewrite listed_remove_first in Hin. lia.
Qed.

Lemma remove_clears_and_unlists_witness :
  stored (holding "github" "JBSWY3DPEHPK3PXP" ["github"]) "github"
    = Some "JBSWY3DPEHPK3PXP" ∧
  stored (left (run (typing "") (cmd Remove "github")
                  (holding "github" "JBSWY3DPEHPK3PXP" ["github"]))) "github"
    = Some "" ∧
  index (left (run (typing "") (cmd Remove "github")
                 (holding "github" "JBSWY3DPEHPK3PXP" ["github"])))
    = [].
Proof.
  split; [reflexivity|].
  destruct (remove_clears_and_unlists (typing "")
              (holding "github" "JBSWY3DPEHPK3PXP" ["github"]) "github"
              false false "JBSWY3DPEHPK3PXP" eq_refl)
    as (_ & _ & Hs & Hi & _).
  exact (conj Hs Hi).
Defined.

(** ** The service name *)

(** C7, as the source has it: generate, add, update and remove without a
    service name log "Service name is required", exit with status 1 and
    change nothing. *)
Theorem missing_service_rejected env w a c d :
  a ≠ ListAll →
  let o := run env (mkArgs a None c d) w in
  written o = [LogError "Service name is required"] ∧
  ended o = Some (SystemExit 1) ∧
  exit_status o = 1 ∧
  left o = w.
Proof. intros Ha o. subst o. by rewrite run_no_service. Qed.

Lemma missing_service_rejected_witness :
  Remove ≠ ListAll ∧
  written (run (typing "") (mkArgs Remove None false false)
             (holding "github" "JBSWY3DPEHPK3PXP" ["github"]))
    = [LogError "Service name is required"] ∧
  left (run (typing "") (mkArgs Remove None false false)
          (holding "github" "JBSWY3DPEHPK3PXP" ["github"]))
    = holding "github" "JBSWY3DPEHPK3PXP" ["github"].
Proof.
  assert (Remove ≠ ListAll) as Hne by discriminate.
  split; [exact Hne|].
  destruct (missing_service_rejected (typing "")
              (holding "github" "JBSWY3DPEHPK3PXP" ["github"]) Remove
              false false Hne) as (Hw & _ & _ & Hl).
  exact (conj Hw Hl).
Defined.

(** C7 as stated fails on an empty service name: the source tests
    [args.service is None] only, so add with the name [""] stores the
    secret, lists the empty name and ends with status 0. *)
Lemma empty_service_name_accepted :
  let o := run (typing "JBSWY3DPEHPK3PXP") (cmd Add "") fresh in
  exit_status o = 0 ∧
  written o = [LogInfo "Key added for service "] ∧
  stored (left o) "" = Some "JBSWY3DPEHPK3PXP" ∧
  index (left o) = [""] ∧
  left o ≠ fresh.
Proof. repeat (split; [reflexivity|]). discriminate. Qed.

(** ** The services file *)

(** C8: add and update that reach the end of [main] append the name to
    the services file only when it is not listed there; a name listed at
    most once before is listed exactly once afterwards, and a file
    without duplicates stays so. *)
Theorem add_update_no_duplicate env w a name c d :
  a = Add ∨ a = Update →
  ended (run env (mkArgs a (Some name) c d) w) = None →
  let l := index w in
  let l' := index (left (run env (mkArgs a (Some name) c d) w)) in
  l' = (if bool_decide (name ∈ l) then l else l ++ [name]) ∧
  (listed name l ≤ 1 → listed name l' = 1) ∧
  (NoDup l → NoDup l').
Proof.
  intros Ha Hend l l'.
  destruct (finished_with_secret env w a name c d Ha Hend) as (secret & _ & Hl).
  subst l l'. rewrite Hl, index_with_secret.
  split; [done|]. case_bool_decide as Hin; (split; [|intros Hnd]).
  - intros Hle. apply listed_elem_of in Hin. lia.
  - done.
  - intros _. rewrite listed_snoc.
    destruct (listed name (index w)) eqn:Hc; [done|].
    exfalso. apply Hin, listed_elem_of. lia.
  - apply NoDup_app. split; [done|]. split; [|apply NoDup_singleton].
    by intros x Hx ->%list_elem_of_singleton.
Qed.

Lemma add_update_no_duplicate_witness :
  ended (run (typing "JBSWY3DPEHPK3PXP") (cmd Add "github")
           (holding "gitlab" "GEZDGNBVGY3TQOJQ" ["gitlab"])) = None ∧
  index (left (run (typing "JBSWY3DPEHPK3PXP") (cmd Add "github")
                 (holding "gitlab" "GEZDGNBVGY3TQOJQ" ["gitlab"])))
    = ["gitlab"; "github"] ∧
  ended (run (typing "JBSWY3DPEHPK3PXP") (cmd Update "gitlab")
           (holding "gitlab" "GEZDGNBVGY3TQOJQ" ["gitlab"])) = None ∧
  index (left (run (typing "JBSWY3DPEHPK3PXP") (cmd Update "gitlab")
                 (holding "gitlab" "GEZDGNBVGY3TQOJQ" ["gitlab"])))
    = ["gitlab"].
Proof.
  split; [reflexivity|]. split.
  - exact (proj1 (add_update_no_duplicate (typing "JBSWY3DPEHPK3PXP")
                    (holding "gitlab" "GEZDGNBVGY3TQOJQ" ["gitlab"])
                    Add "github" false false (or_introl eq_refl) eq_refl)).
  - split; [reflexivity|].
    exact (proj1 (add_update_no_duplicate (typing "JBSWY3DPEHPK3PXP")
                    (holding "gitlab" "GEZDGNBVGY3TQOJQ" ["gitlab"])
                    Update "gitlab" false false (or_intror eq_refl) eq_refl)).
Defined.

(** ** After remove *)

(** C9, as the source has it: after remove on a service that the services
    file lists at most once, the entry is the empty string and the name is
    listed no more; add for the same service, once the prompt hands on a
    secret, passes the [if key:] test, reaches the end of [main], stores
    the new secret and appends the name to the services file. *)
Theorem remove_then_add env_r env_a w name c d c' d' k secret :
  stored w name = Some k →
  listed name (index w) ≤ 1 →
  effective_secret (typed env_a) = Some secret →
  let w1 := left (run env_r (mkArgs Remove (Some name) c d) w) in
  let o := run env_a (mkArgs Add (Some name) c' d') w1 in
  stored w1 name = Some "" ∧
  truthy (stored w1 name) = false ∧
  ended o = None ∧
  written o = [LogInfo ("Key added for service " +:+ name)] ∧
  stored (left o) name = Some secret ∧
  index (left o) = remove_first name (index w) ++ [name].
Proof.
  intros Hk Hle He w1 o. subst o w1.
  rewrite (run_remove_present _ _ _ _ _ k) by done. simpl.
  assert (stored (without_secret name w) name = Some "") as Hs
    by apply stored_without_secret.
  assert (truthy (stored (without_secret name w) name) = false) as Ht
    by by rewrite Hs.
  rewrite (run_add_free _ _ _ _ _ secret) by done. simpl.
  split; [done|]. split; [done|]. split; [done|]. split; [done|].
  split; [apply stored_with_secret|].
  rewrite index_with_secret, index_without_secret.
  rewrite bool_decide_eq_false_2; [done|].
  intros Hin%listed_elem_of. rewrite listed_remove_first in Hin. lia.
Qed.

Lemma remove_then_add_witness :
  stored (holding "github" "JBSWY3DPEHPK3PXP" ["gitlab"; "github"]) "github"
    = Some "JBSWY3DPEHPK3PXP" ∧
  listed "github" (index (holding "github" "JBSWY3DPEHPK3PXP" ["gitlab"; "github"]))
    ≤ 1 ∧
  index (left (run (typing "GEZDGNBVGY3TQOJQ") (cmd Add "github")
                 (left (run (typing "") (cmd Remove "github")
                          (holding "github" "JBSWY3DPEHPK3PXP"
                             ["gitlab"; "github"])))))
    = ["gitlab"; "github"] ∧
  stored (left (run (typing "GEZDGNBVGY3TQOJQ") (cmd Add "github")
                  (left (run (typing "") (cmd Remove "github")
                           (holding "github" "JBSWY3DPEHPK3PXP"
                              ["gitlab"; "github"]))))) "github"
    = Some "GEZDGNBVGY3TQOJQ".
Proof.
  assert (listed "github" ["gitlab"; "github"] ≤ 1) as Hle
    by (vm_compute; lia).
  split; [reflexivity|]. split; [exact Hle|].
  destruct (remove_then_add (typing "") (typing "GEZDGNBVGY3TQOJQ")
              (holding "github" "JBSWY3DPEHPK3PXP" ["gitlab"; "github"])
              "github" false false false false
              "JBSWY3DPEHPK3PXP" "GEZDGNBVGY3TQOJQ" eq_refl Hle eq_refl)
    as (_ & _ & _ & _ & Hs & Hi).
  exact (conj Hi Hs).
Defined.

(** C9 as stated fails on a services file that lists the name twice:
    remove takes out the first listing only, so add finds the name still
    listed and appends nothing. *)
Lemma readd_with_duplicate_listing :
  let w := holding "github" "JBSWY3DPEHPK3PXP" ["github"; "github"] in
  let w1 := left (run (typing "") (cmd Remove "github") w) in
  let o := run (typing "GEZDGNBVGY3TQOJQ") (cmd Add "github") w1 in
  ended (run (typing "") (cmd Remove "github") w) = None ∧
  index w1 = ["github"] ∧
  ended o = None ∧
  stored (left o) "github" = Some "GEZDGNBVGY3TQOJQ" ∧
  index (left o) = ["github"] ∧
  index (left o) ≠ index w1 ++ ["github"].
Proof. repeat (split; [reflexivity|]). discriminate. Qed.

(** C10: update on a service whose keyring entry is the empty string,
    with the new secret the prompt hands on: the test [key is None] lets
    the empty string pass, so update reaches the end of [main], overwrites
    the empty secret with the new one and appends the name to the services
    file when it is not listed. *)
Theorem update_resurrects env w name c d secret :
  stored w name = Some "" →
  effective_secret (typed env) = Some secret →
  let o := run env (mkArgs Update (Some name) c d) w in
  ended o = None ∧
  written o = [LogInfo ("Key updated for service " +:+ name)] ∧
  keyring (left o) = <[(name, name) := secret]> (keyring w) ∧
  stored (left o) name = Some secret ∧
  index (left o)
    = (if bool_decide (name ∈ index w) then index w else index w ++ [name]) ∧
  name ∈ index (left o).
Proof.
  intros Hk He o. subst o.
  rewrite (run_update_present _ _ _ _ _ secret "") by done. simpl.
  split; [done|]. split; [done|]. split; [done|].
  split; [apply stored_with_secret|].
  split; [apply index_with_secret|apply listed_with_secret].
Qed.

Lemma update_resurrects_witness :
  stored (holding "github" "" []) "github" = Some "" ∧
  effective_secret (typed (typing "GEZDGNBVGY3TQOJQ")) = Some "GEZDGNBVGY3TQOJQ" ∧
  stored (left (run (typing "GEZDGNBVGY3TQOJQ") (cmd Update "github")
                  (holding "github" "" []))) "github"
    = Some "GEZDGNBVGY3TQOJQ" ∧
  index (left (run (typing "GEZDGNBVGY3TQOJQ") (cmd Update "github")
                 (holding "github" "" [])))
    = ["github"].
Proof.
  split; [reflexivity|]. split; [reflexivity|].
  destruct (update_resurrects (typing "GEZDGNBVGY3TQOJQ")
              (holding "github" "" []) "github" false false
              "GEZDGNBVGY3TQOJQ" eq_refl eq_refl)
    as (_ & _ & _ & Hs & Hi & _).
  exact (conj Hs Hi).
Defined.

(** ** The services file never gains a duplicate *)

(** Whatever the command and however it ends, a services file without
    duplicates is left without duplicates. *)
Lemma run_keeps_NoDup env args w :
  NoDup (index w) → NoDup (index (left (run env args w))).
Proof.
  intros Hnd. destruct args as [a [name|] c d].
  2:{ destruct a; first [by rewrite run_no_service | by rewrite run_list]. }
  destruct a.
  - destruct (stored w name) as [k|] eqn:Hk.
    + destruct (oathtool env k) as [totp|] eqn:Ho.
      * rewrite (run_generate_code _ _ _ _ _ k totp) by done.
        by destruct (pyclip_loaded env && c).
      * by rewrite (run_generate_failed _ _ _ _ _ k).
    + by rewrite run_generate_absent.
  - destruct (ended (run env (mkArgs Add (Some name) c d) w)) eqn:He.
    + destruct (effective_secret (typed env)) as [secret|] eqn:Hs.
      * destruct (truthy (stored w name)) eqn:Hk.
        -- by rewrite (run_add_taken _ _ _ _ _ secret).
        -- by rewrite (run_add_free _ _ _ _ _ secret) in He.
      * by rewrite (proj2 (prompt_failure_harmless env w Add name c d
                             (or_introl eq_refl) Hs)).
    + destruct (finished_with_secret env w Add name c d (or_introl eq_refl) He)
        as (secret & _ & ->).
      rewrite index_with_secret. case_bool_decide as Hin; [done|].
      apply NoDup_app. split; [done|]. split; [|apply NoDup_singleton].
      by intros x Hx ->%list_elem_of_singleton.
  - destruct (ended (run env (mkArgs Update (Some name) c d) w)) eqn:He.
    + destruct (effective_secret (typed env)) as [secret|] eqn:Hs.
      * destruct (stored w name) as [k|] eqn:Hk.
        -- by rewrite (run_update_present _ _ _ _ _ secret k) in He.
        -- by rewrite (run_update_absent _ _ _ _ _ secret).
      * by rewrite (proj2 (prompt_failure_harmless env w Update name c d
                             (or_intror eq_refl) Hs)).
    + destruct (finished_with_secret env w Update name c d (or_intror eq_refl) He)
        as (secret & _ & ->).
      rewrite index_with_secret. case_bool_decide as Hin; [done|].
      apply NoDup_app. split; [done|]. split; [|apply NoDup_singleton].
      by intros x Hx ->%list_elem_of_singleton.
  - destruct (stored w name) as [k|] eqn:Hk.
    + rewrite (run_remove_present _ _ _ _ _ k) by done. simpl.
      rewrite index_without_secret. by apply NoDup_remove_first.
    + by rewrite run_remove_absent.
  - by rewrite run_list.
Qed.


(** * Further properties of the commands *)

(** ** Every run follows one of the paths *)

Lemma run_Ran env args w : Ran env w args (run env args w).
Proof.
  destruct args as [a [name|] c d].
  2:{ destruct a; first [rewrite run_no_service by done; by constructor
                        | rewrite run_list; constructor]. }
  destruct a.
  - destruct (stored w name) as [k|] eqn:Hk.
    + destruct (oathtool env k) as [totp|] eqn:Ho.
      * rewrite (run_generate_code _ _ _ _ _ k totp) by done.
        destruct (pyclip_loaded env && c) eqn:Hc; by econstructor.
      * rewrite (run_generate_failed _ _ _ _ _ k) by done. by econstructor.
    + rewrite run_generate_absent by done. by constructor.
  - destruct (effective_secret (typed env)) as [secret|] eqn:Hs.
    + destruct (truthy (stored w name)) eqn:Hk.
      * rewrite (run_add_taken _ _ _ _ _ secret) by done. by econstructor.
      * rewrite (run_add_free _ _ _ _ _ secret) by done. by econstructor.
    + destruct (decide (typed env = "")) as [Ht|Ht].
      * rewrite run_prompt_empty by auto. constructor; auto.
      * rewrite run_prompt_broken by auto. constructor; auto.
  - destruct (effective_secret (typed env)) as [secret|] eqn:Hs.
    + destruct (stored w name) as [k|] eqn:Hk.
      * rewrite (run_update_present _ _ _ _ _ secret k) by done.
        by econstructor.
      * rewrite (run_update_absent _ _ _ _ _ secret) by done. by econstructor.
    + destruct (decide (typed env = "")) as [Ht|Ht].
      * rewrite run_prompt_empty by auto. constructor; auto.
      * rewrite run_prompt_broken by auto. constructor; auto.
  - destruct (stored w name) as [k|] eqn:Hk.
    + rewrite (run_remove_present _ _ _ _ _ k) by done. by econstructor.
    + rewrite run_remove_absent by done. by constructor.
  - rewrite run_list. constructor.
Qed.

(** A prompt that hands on nothing on a non-empty line: the line is a URL
    without the parameter. *)
Lemma broken_prompt_is_url typed :
  typed ≠ "" → effective_secret typed = None →
  PyStr.startswith typed "otpauth://" = true ∧
  PyStr.contains "secret=" typed = false.
Proof.
  intros Ht. unfold effective_secret.
  destruct (decide (typed = "")); [done|].
  destruct (PyStr.startswith typed "otpauth://"); [|done].
  intros Hu. split; [done|].
  destruct (PyStr.contains "secret=" typed) eqn:Hc; [|done].
  by rewrite url_secret_found in Hu.
Qed.

Lemma filter_remove_first x (l : list string) :
  filter (λ n, n ≠ x) (remove_first x l) = filter (λ n, n ≠ x) l.
Proof.
  induction l as [|y l IH]; [done|]. rewrite remove_first_cons.
  destruct (decide (y = x)) as [->|Hne].
  - by rewrite filter_cons_False by (by intros ?).
  - by rewrite !filter_cons_True, IH by done.
Qed.

(** ** list *)

(** X1: list needs no service name and reads the services file only: it
    logs the names in file order, joined by a comma and a space, exits
    with status 0 and changes nothing; whatever the keyring, the flags and
    the prompt, a second list prints the same line. *)
Theorem list_only_reads env env' w sv sv' c c' d d' kr cb :
  let o := run env (mkArgs ListAll sv c d) w in
  ended o = Some (SystemExit 0) ∧
  written o = [LogInfo ("Services: " +:+ PyStr.join ", " (index w))] ∧
  left o = w ∧
  run env' (mkArgs ListAll sv' c' d') (left o) = o ∧
  written (run env' (mkArgs ListAll sv' c' d')
             (mkWorld kr (services_file w) cb)) = written o.
Proof. intros o. subst o. by rewrite !run_list. Qed.

(** ** How a command ends *)

(** X2: the ways [main] ends.  It reaches its end only for a command with
    a service name; [exit(0)] is list's alone and every other [exit] has
    code 1; IndexError escapes only from add and update on a line that
    starts with [otpauth://] and has no [secret=]; CalledProcessError
    escapes only from generate; the ValueError of [list.remove] never
    escapes. *)
Theorem run_ends env args w :
  match ended (run env args w) with
  | None => action args ≠ ListAll ∧ is_Some (service args)
  | Some (SystemExit 0) => action args = ListAll
  | Some (SystemExit 1) => action args ≠ ListAll
  | Some (SystemExit _) => False
  | Some (Uncaught IndexError) =>
      (action args = Add ∨ action args = Update) ∧
      PyStr.startswith (typed env) "otpauth://" = true ∧
      PyStr.contains "secret=" (typed env) = false
  | Some (Uncaught CalledProcessError) => action args = Generate
  | Some (Uncaught ValueError) => False
  end.
Proof.
  destruct (run_Ran env args w); simpl; try done.
  - by destruct H as [-> | ->].
  - split; [done|]. by apply broken_prompt_is_url.
Qed.



(** ** What a command leaves alone *)

(** X4: a command for one service changes no keyring entry but the one
    filed under that service's name as both service and user. *)
Theorem other_entries_kept env args w name key :
  service args = Some name → key ≠ (name, name) →
  keyring (left (run env args w)) !! key = keyring w !! key.
Proof.
  intros Hsv Hkey.
  destruct (run_Ran env args w); simpl in *; try done;
    injection Hsv as ->; by rewrite lookup_insert_ne.
Qed.

Lemma other_entries_kept_witness :
  service (cmd Remove "github") = Some "github" ∧
  ("gitlab", "gitlab") ≠ ("github", "github") ∧
  keyring (left (run (typing "") (cmd Remove "github")
                   (mkWorld {[ ("github", "github") := "JBSWY3DPEHPK3PXP";
                               ("gitlab", "gitlab") := "GEZDGNBVGY3TQOJQ" ]}
                            (Some ["github"; "gitlab"]) None)))
    !! ("gitlab", "gitlab")
  = Some "GEZDGNBVGY3TQOJQ".
Proof.
  assert ((("gitlab", "gitlab") : string * string) ≠ ("github", "github"))
    as Hne by discriminate.
  split; [reflexivity|]. split; [exact Hne|].
  exact (other_entries_kept (typing "") (cmd Remove "github")
           (mkWorld {[ ("github", "github") := "JBSWY3DPEHPK3PXP";
                       ("gitlab", "gitlab") := "GEZDGNBVGY3TQOJQ" ]}
                    (Some ["github"; "gitlab"]) None)
           "github" ("gitlab", "gitlab") eq_refl Hne).
Defined.

(** X5: a command for one service keeps the listings of all other names
    in the services file, each as often and in the same order as before. *)
Theorem other_listings_kept env args w name :
  service args = Some name →
  filter (λ n, n ≠ name) (index (left (run env args w)))
  = filter (λ n, n ≠ name) (index w).
Proof.
  intros Hsv.
  destruct (run_Ran env args w); simpl in *; try done;
    injection Hsv as ->.
  - rewrite index_with_secret. case_bool_decide; [done|].
    rewrite filter_app, filter_cons_False by (by intros ?).
    by rewrite filter_nil, app_nil_r.
  - rewrite index_with_secret. case_bool_decide; [done|].
    rewrite filter_app, filter_cons_False by (by intros ?).
    by rewrite filter_nil, app_nil_r.
  - by rewrite index_without_secret, filter_remove_first.
Qed.

Lemma other_listings_kept_witness :
  service (cmd Remove "github") = Some "github" ∧
  index (left (run (typing "") (cmd Remove "github")
                 (holding "github" "JBSWY3DPEHPK3PXP"
                    ["gitlab"; "github"; "codeberg"])))
    = ["gitlab"; "codeberg"].
Proof.
  split; [reflexivity|].
  pose proof (other_listings_kept (typing "") (cmd Remove "github")
                (holding "github" "JBSWY3DPEHPK3PXP"
                   ["gitlab"; "github"; "codeberg"]) "github" eq_refl) as H.
  exact H.
Defined.

(** ** generate and the clipboard *)

(** X6: generate never writes the keyring or the services file.  It sets
    the clipboard only when [pyclip] is loaded, [--copy] is given and
    [oathtool] returned a code, and then to that code; without [pyclip]
    the flag changes nothing at all. *)
Theorem generate_writes_clipboard_only env w sv c d :
  let o := run env (mkArgs Generate sv c d) w in
  keyring (left o) = keyring w ∧
  services_file (left o) = services_file w ∧
  (left o = w ∨
   pyclip_loaded env = true ∧ c = true ∧ ended o = None ∧
   ∃ name k totp, sv = Some name ∧ stored w name = Some k ∧
     oathtool env k = Some totp ∧ clipboard (left o) = Some totp) ∧
  (pyclip_loaded env = false → o = run env (mkArgs Generate sv false d) w).
Proof.
  intros o. subst o.
  remember (mkArgs Generate sv c d) as args eqn:Ha.
  destruct (run_Ran env args w) as
    [ | | | |name' c0 d0 k totp Hk Ho Hc|name' c0 d0 k totp Hk Ho Hc
    |a ? ? ? Ha'|a ? ? ? Ha'| | | | | | ];
    simplify_eq; simpl; (split; [done|]); (split; [done|]);
    try (split; [by left|]).
  - intros _. by rewrite run_no_service.
  - intros _. by rewrite run_generate_absent.
  - intros _. by rewrite (run_generate_failed _ _ _ _ _ k).
  - intros Hp. rewrite (run_generate_code _ _ _ _ _ k totp) by done.
    by rewrite Hp.
  - apply andb_true_iff in Hc as [Hp ->]. split.
    + right. split; [done|]. split; [done|]. split; [done|].
      by exists name', k, totp.
    + intros Hp'. congruence.
  - by destruct Ha'.
  - by destruct Ha'.
Qed.

(** ** Commands one after the other *)

Lemma remove_first_snoc x l : x ∉ l → remove_first x (l ++ [x]) = l.
Proof.
  induction l as [|y l IH]; intros Hin.
  - change ([] ++ [x]) with [x].
    rewrite remove_first_cons. by destruct (decide (x = x)).
  - apply not_elem_of_cons in Hin as [Hne Hin].
    change ((y :: l) ++ [x]) with (y :: (l ++ [x])).
    rewrite remove_first_cons. destruct (decide (y = x)); [done|].
    by rewrite IH.
Qed.

Lemma with_secret_twice name s1 s2 w :
  with_secret name s2 (with_secret name s1 w) = with_secret name s2 w.
Proof.
  unfold with_secret at 1. rewrite index_with_secret.
  unfold with_secret. simpl. rewrite insert_insert_eq.
  f_equal. rewrite bool_decide_eq_true_2; [done|].
  case_bool_decide; [done|].
  apply elem_of_app. right. by apply list_elem_of_singleton.
Qed.

(** X7: what add or update stored is what generate hands to [oathtool].
    After an add or update that reached the end of [main], generate for
    the same service calls the tool on the secret the prompt handed on: it
    logs the tool's code first, or dies from the tool's error. *)
Theorem generate_after_set env_s env_g w a name c d c' d' :
  a = Add ∨ a = Update →
  ended (run env_s (mkArgs a (Some name) c d) w) = None →
  ∃ secret, effective_secret (typed env_s) = Some secret ∧
    let o := run env_g (mkArgs Generate (Some name) c' d')
               (left (run env_s (mkArgs a (Some name) c d) w)) in
    match oathtool env_g secret with
    | Some totp =>
        ended o = None ∧
        written o !! 0
          = Some (LogInfo ("TOTP code for " +:+ name +:+ ": " +:+ totp))
    | None => ended o = Some (Uncaught CalledProcessError) ∧ written o = []
    end.
Proof.
  intros Ha Hend.
  destruct (finished_with_secret env_s w a name c d Ha Hend)
    as (secret & He & ->).
  exists secret. split; [done|]. simpl.
  pose proof (stored_with_secret name secret w) as Hs.
  destruct (oathtool env_g secret) as [totp|] eqn:Ho.
  - rewrite (run_generate_code _ _ _ _ _ secret totp) by done.
    by destruct (pyclip_loaded env_g && c').
  - by rewrite (run_generate_failed _ _ _ _ _ secret).
Qed.

Lemma generate_after_set_witness :
  ended (run (typing "otpauth://totp/Example:alice?secret=JBSWY3DPEHPK3PXP&issuer=Example")
           (cmd Add "github") fresh) = None ∧
  ∃ secret,
    effective_secret
      (typed (typing "otpauth://totp/Example:alice?secret=JBSWY3DPEHPK3PXP&issuer=Example"))
    = Some secret ∧
    let o := run (echoing "") (cmd Generate "github")
               (left (run (typing "otpauth://totp/Example:alice?secret=JBSWY3DPEHPK3PXP&issuer=Example")
                        (cmd Add "github") fresh)) in
    match oathtool (echoing "") secret with
    | Some totp =>
        ended o = None ∧
        written o !! 0
          = Some (LogInfo ("TOTP code for " +:+ "github" +:+ ": " +:+ totp))
    | None => ended o = Some (Uncaught CalledProcessError) ∧ written o = []
    end.
Proof.
  split; [reflexivity|].
  exact (generate_after_set
           (typing "otpauth://totp/Example:alice?secret=JBSWY3DPEHPK3PXP&issuer=Example")
           (echoing "") fresh Add "github" false false false false
           (or_introl eq_refl) eq_refl).
Defined.

(** X8: add, then remove.  For a service that has no usable secret and is
    not listed, a remove after the add puts the list of names back as it
    was, but the keyring does not go back: the entry stays, holding the
    empty string. *)
Theorem add_then_remove env_a env_r w name c d c' d' secret :
  truthy (stored w name) = false →
  name ∉ index w →
  effective_secret (typed env_a) = Some secret →
  let w1 := left (run env_a (mkArgs Add (Some name) c d) w) in
  let o := run env_r (mkArgs Remove (Some name) c' d') w1 in
  index w1 = index w ++ [name] ∧
  ended o = None ∧
  index (left o) = index w ∧
  stored (left o) name = Some "" ∧
  keyring (left o) = <[(name, name) := ""]> (keyring w).
Proof.
  intros Hk Hin He w1 o. subst o w1.
  rewrite (run_add_free env_a w _ _ _ secret) by done. simpl.
  rewrite (run_remove_present _ _ _ _ _ secret)
    by apply stored_with_secret. simpl.
  rewrite index_without_secret, index_with_secret.
  rewrite bool_decide_eq_false_2 by done.
  split; [done|]. split; [done|].
  split; [by apply remove_first_snoc|].
  split; [apply lookup_insert_eq|apply insert_insert_eq].
Qed.

Lemma add_then_remove_witness :
  truthy (stored (holding "gitlab" "GEZDGNBVGY3TQOJQ" ["gitlab"]) "github")
    = false ∧
  index (left (run (typing "") (cmd Remove "github")
                 (left (run (typing "JBSWY3DPEHPK3PXP") (cmd Add "github")
                          (holding "gitlab" "GEZDGNBVGY3TQOJQ" ["gitlab"])))))
    = ["gitlab"] ∧
  stored (left (run (typing "") (cmd Remove "github")
                  (left (run (typing "JBSWY3DPEHPK3PXP") (cmd Add "github")
                           (holding "gitlab" "GEZDGNBVGY3TQOJQ" ["gitlab"])))))
         "github"
    = Some "".
Proof.
  assert ("github" ∉ index (holding "gitlab" "GEZDGNBVGY3TQOJQ" ["gitlab"]))
    as Hin.
  { intros Hin. apply list_elem_of_singleton in Hin. discriminate Hin. }
  split; [reflexivity|].
  destruct (add_then_remove (typing "JBSWY3DPEHPK3PXP") (typing "")
              (holding "gitlab" "GEZDGNBVGY3TQOJQ" ["gitlab"]) "github"
              false false false false "JBSWY3DPEHPK3PXP" eq_refl Hin eq_refl)
    as (_ & _ & Hi & Hs & _).
  exact (conj Hi Hs).
Defined.

(** X9: remove, then remove again.  The first remove leaves the entry in
    the keyring, so the second one finds a key that is not [None]: it
    never reports "Service not found" but logs the removal once more; for
    a name that was listed at most once it changes nothing any more. *)
Theorem remove_twice env env' w name c d c' d' k :
  stored w name = Some k →
  let w1 := left (run env (mkArgs Remove (Some name) c d) w) in
  let o := run env' (mkArgs Remove (Some name) c' d') w1 in
  ended o = None ∧
  written o = [LogInfo ("Key removed for service " +:+ name)] ∧
  (listed name (index w) ≤ 1 → left o = w1).
Proof.
  intros Hk w1 o. subst o w1.
  rewrite (run_remove_present env w _ _ _ k) by done. simpl.
  rewrite (run_remove_present _ _ _ _ _ "")
    by apply stored_without_secret. simpl.
  split; [done|]. split; [done|]. intros Hle.
  unfold without_secret at 1. rewrite index_without_secret.
  rewrite bool_decide_eq_false_2.
  - unfold without_secret. simpl. by rewrite insert_insert_eq.
  - intros Hin%listed_elem_of. rewrite listed_remove_first in Hin. lia.
Qed.

Lemma remove_twice_witness :
  stored (holding "github" "JBSWY3DPEHPK3PXP" ["github"]) "github"
    = Some "JBSWY3DPEHPK3PXP" ∧
  written (run (typing "") (cmd Remove "github")
             (left (run (typing "") (cmd Remove "github")
                      (holding "github" "JBSWY3DPEHPK3PXP" ["github"]))))
    = [LogInfo "Key removed for service github"].
Proof.
  split; [reflexivity|].
  destruct (remove_twice (typing "") (typing "")
              (holding "github" "JBSWY3DPEHPK3PXP" ["github"]) "github"
              false false false false "JBSWY3DPEHPK3PXP" eq_refl)
    as (_ & Hw & _).
  exact Hw.
Defined.

(** X10: update overwrites.  Two updates of a service with a keyring
    entry leave the world that the second one alone would have left:
    nothing of the first secret remains, and the name is not listed
    twice. *)
Theorem update_twice env1 env2 w name c d c' d' s1 s2 :
  is_Some (stored w name) →
  effective_secret (typed env1) = Some s1 →
  effective_secret (typed env2) = Some s2 →
  left (run env2 (mkArgs Update (Some name) c' d')
          (left (run env1 (mkArgs Update (Some name) c d) w)))
  = left (run env2 (mkArgs Update (Some name) c' d') w).
Proof.
  intros [k Hk] He1 He2.
  rewrite (run_update_present env1 _ _ _ _ s1 k) by done. simpl.
  rewrite (run_update_present env2 _ _ _ _ s2 s1)
    by (done || apply stored_with_secret). simpl.
  rewrite (run_update_present env2 _ _ _ _ s2 k) by done. simpl.
  apply with_secret_twice.
Qed.

Lemma update_twice_witness :
  is_Some (stored (holding "github" "JBSWY3DPEHPK3PXP" []) "github") ∧
  left (run (typing "MFRGGZDFMZTWQ2LK") (cmd Update "github")
          (left (run (typing "GEZDGNBVGY3TQOJQ") (cmd Update "github")
                   (holding "github" "JBSWY3DPEHPK3PXP" []))))
  = left (run (typing "MFRGGZDFMZTWQ2LK") (cmd Update "github")
            (holding "github" "JBSWY3DPEHPK3PXP" [])).
Proof.
  assert (is_Some (stored (holding "github" "JBSWY3DPEHPK3PXP" []) "github"))
    as Hk by (by eexists).
  exact (conj Hk (update_twice (typing "GEZDGNBVGY3TQOJQ")
                    (typing "MFRGGZDFMZTWQ2LK")
                    (holding "github" "JBSWY3DPEHPK3PXP" []) "github"
                    false false false false
                    "GEZDGNBVGY3TQOJQ" "MFRGGZDFMZTWQ2LK" Hk eq_refl eq_refl)).
Defined.

(** ** What the output tells *)

(** X11: the secret does not show in the output of add and update.  For
    any two lines the prompt accepts, whatever secrets they carry, the
    command writes the same records and ends the same way. *)
Theorem output_hides_secret env1 env2 w a name c d s1 s2 :
  a = Add ∨ a = Update →
  effective_secret (typed env1) = Some s1 →
  effective_secret (typed env2) = Some s2 →
  written (run env1 (mkArgs a (Some name) c d) w)
    = written (run env2 (mkArgs a (Some name) c d) w) ∧
  ended (run env1 (mkArgs a (Some name) c d) w)
    = ended (run env2 (mkArgs a (Some name) c d) w).
Proof.
  intros [-> | ->] He1 He2.
  - destruct (truthy (stored w name)) eqn:Hk.
    + by rewrite (run_add_taken env1 _ _ _ _ s1),
        (run_add_taken env2 _ _ _ _ s2).
    + by rewrite (run_add_free env1 _ _ _ _ s1),
        (run_add_free env2 _ _ _ _ s2).
  - destruct (stored w name) as [k|] eqn:Hk.
    + by rewrite (run_update_present env1 _ _ _ _ s1 k),
        (run_update_present env2 _ _ _ _ s2 k).
    + by rewrite (run_update_absent env1 _ _ _ _ s1),
        (run_update_absent env2 _ _ _ _ s2).
Qed.

Lemma output_hides_secret_witness :
  effective_secret (typed (typing "JBSWY3DPEHPK3PXP")) = Some "JBSWY3DPEHPK3PXP" ∧
  effective_secret (typed (echoing "otpauth://totp/a?secret=GEZDGNBVGY3TQOJQ"))
    = Some "GEZDGNBVGY3TQOJQ" ∧
  written (run (typing "JBSWY3DPEHPK3PXP") (cmd Add "github") fresh)
    = written (run (echoing "otpauth://totp/a?secret=GEZDGNBVGY3TQOJQ")
                 (cmd Add "github") fresh).
Proof.
  split; [reflexivity|]. split; [reflexivity|].
  exact (proj1 (output_hides_secret (typing "JBSWY3DPEHPK3PXP")
                  (echoing "otpauth://totp/a?secret=GEZDGNBVGY3TQOJQ")
                  fresh Add "github" false false
                  "JBSWY3DPEHPK3PXP" "GEZDGNBVGY3TQOJQ"
                  (or_introl eq_refl) eq_refl eq_refl)).
Defined.

(** ** add against update *)

(** X12: on a line the prompt accepts, add and update split the
    services between them, but for one case.  Without a keyring entry add
    goes through and update is refused; with a non-empty secret add is
    refused and update goes through; on the empty string both go through.
    Where both go through they leave the same world. *)
Theorem add_or_update env w name c d secret :
  effective_secret (typed env) = Some secret →
  let oa := run env (mkArgs Add (Some name) c d) w in
  let ou := run env (mkArgs Update (Some name) c d) w in
  match stored w name with
  | None => ended oa = None ∧ ended ou = Some (SystemExit 1)
  | Some k =>
      if decide (k = "")
      then ended oa = None ∧ ended ou = None ∧ left oa = left ou
      else ended oa = Some (SystemExit 1) ∧ ended ou = None
  end.
Proof.
  intros He oa ou. subst oa ou.
  destruct (stored w name) as [k|] eqn:Hk.
  - rewrite (run_update_present _ _ _ _ _ secret k) by done.
    destruct (decide (k = "")) as [->|Hne].
    + by rewrite (run_add_free _ _ _ _ _ secret) by (by rewrite ?Hk).
    + rewrite (run_add_taken _ _ _ _ _ secret); [done..|].
      rewrite Hk. simpl. by apply bool_decide_eq_true.
  - rewrite (run_update_absent _ _ _ _ _ secret) by done.
    by rewrite (run_add_free _ _ _ _ _ secret) by (by rewrite ?Hk).
Qed.

Lemma add_or_update_witness :
  effective_secret (typed (typing "GEZDGNBVGY3TQOJQ")) = Some "GEZDGNBVGY3TQOJQ" ∧
  ended (run (typing "GEZDGNBVGY3TQOJQ") (cmd Add "github")
           (holding "github" "JBSWY3DPEHPK3PXP" ["github"]))
    = Some (SystemExit 1) ∧
  ended (run (typing "GEZDGNBVGY3TQOJQ") (cmd Update "github")
           (holding "github" "JBSWY3DPEHPK3PXP" ["github"]))
    = None.
Proof.
  split; [reflexivity|].
  exact (add_or_update (typing "GEZDGNBVGY3TQOJQ")
           (holding "github" "JBSWY3DPEHPK3PXP" ["github"]) "github"
           false false "GEZDGNBVGY3TQOJQ" eq_refl).
Defined.

(** ** More on cutting strings *)

Lemma prefix_empty s : String.prefix EmptyString s = true.
Proof. by destruct s. Qed.

Lemma prefix_take sub n s :
  String.prefix sub (PyStr.take n s) = true → String.prefix sub s = true.
Proof.
  revert n s. induction sub as [|a sub IH]; intros n s; [by destruct s|].
  destruct n as [|n], s as [|c s]; simpl; try done.
  destruct (ascii_dec a c); [|done]. apply IH.
Qed.

Lemma contains_empty sub :
  sub ≠ EmptyString → PyStr.contains sub EmptyString = false.
Proof. by destruct sub. Qed.

Lemma contains_take sub n s :
  sub ≠ EmptyString →
  PyStr.contains sub (PyStr.take n s) = true → PyStr.contains sub s = true.
Proof.
  intros Hsub. revert n. induction s as [|c s IH]; intros n.
  - destruct n; simpl; by rewrite contains_empty.
  - destruct n as [|n]; simpl; [by rewrite contains_empty|].
    rewrite !contains_cons. intros [Hp|Hc]%orb_true_iff.
    + apply (prefix_take _ (S n) (String c s)) in Hp. by rewrite Hp.
    + apply IH in Hc. rewrite Hc. apply orb_true_r.
Qed.

Lemma before_is_take sub s : ∃ n, PyStr.before sub s = PyStr.take n s.
Proof.
  unfold PyStr.before. destruct (PyStr.find sub s) as [i|]; [by exists i|].
  exists (String.length s). clear. induction s as [|c s IH]; [done|].
  simpl. by rewrite <- IH.
Qed.

(** What stands in front of the leftmost [sub] has no [sub] in it. *)
Lemma before_free sub s :
  sub ≠ EmptyString → PyStr.contains sub (PyStr.before sub s) = false.
Proof.
  intros Hsub. induction s as [|c s IH].
  - rewrite before_nil. by apply contains_empty.
  - rewrite before_cons.
    destruct (String.prefix sub (String c s)) eqn:Hp;
      [by apply contains_empty|].
    rewrite contains_cons, IH, orb_false_r.
    destruct (String.prefix sub (String c (PyStr.before sub s))) eqn:Hp';
      [|done].
    destruct (before_is_take sub s) as [n Hn]. rewrite Hn in Hp'.
    apply (prefix_take _ (S n) (String c s)) in Hp'. congruence.
Qed.

Lemma find_None_free sub s :
  PyStr.find sub s = None → PyStr.contains sub s = false.
Proof. unfold PyStr.contains. by intros ->. Qed.

Lemma split_fuel_cons fuel sep s :
  ∃ piece rest, PyStr.split_fuel fuel sep s = piece :: rest.
Proof.
  destruct fuel as [|fuel]; simpl; [by eexists _, _|].
  destruct (PyStr.find sep s); by eexists _, _.
Qed.

Lemma join_cons sep piece rest :
  rest ≠ [] →
  PyStr.join sep (piece :: rest) = piece +:+ sep +:+ PyStr.join sep rest.
Proof. by destruct rest. Qed.

Lemma take_drop_sep sep s i :
  PyStr.find sep s = Some i →
  PyStr.take i s +:+ sep +:+ PyStr.drop (i + String.length sep) s = s.
Proof.
  intros Hf. pose proof (before_after sep s) as H.
  unfold PyStr.contains, PyStr.before, PyStr.after in H. rewrite Hf in H.
  symmetry. by apply H.
Qed.

(** ** The prompt's string methods *)

(** X13: [split] and [join] undo each other, and [split] leaves no
    separator behind: for a non-empty separator, joining the pieces of a
    string with the separator gives the string back, and no piece has the
    separator in it. *)
Theorem split_join sep s :
  sep ≠ EmptyString →
  PyStr.join sep (PyStr.split sep s) = s ∧
  Forall (λ piece, PyStr.contains sep piece = false) (PyStr.split sep s).
Proof.
  intros Hsep. unfold PyStr.split.
  assert (0 < String.length sep) as Hlen by (destruct sep; simpl; [done|lia]).
  assert (∀ fuel t, String.length t < fuel →
            PyStr.join sep (PyStr.split_fuel fuel sep t) = t ∧
            Forall (λ piece, PyStr.contains sep piece = false)
              (PyStr.split_fuel fuel sep t)) as H.
  { induction fuel as [|fuel IH]; intros t Hlt; [lia|]. simpl.
    destruct (PyStr.find sep t) as [i|] eqn:Hf.
    - destruct (find_Some _ _ _ Hf) as (_ & Hle & _).
      destruct (IH (PyStr.drop (i + String.length sep) t)) as [Hj Hall].
      { rewrite length_drop. lia. }
      split.
      + rewrite join_cons, Hj; [by apply take_drop_sep|].
        destruct (split_fuel_cons fuel sep
                    (PyStr.drop (i + String.length sep) t))
          as (piece & rest & ->). done.
      + apply Forall_cons. split; [|done].
        pose proof (before_free sep t Hsep) as Hb.
        unfold PyStr.before in Hb. by rewrite Hf in Hb.
    - split; [done|]. apply Forall_cons. split; [|by apply Forall_nil].
      by apply find_None_free. }
  apply H. lia.
Qed.

Lemma split_join_witness :
  "&" ≠ EmptyString ∧
  PyStr.split "&" "secret=JBSWY3DPEHPK3PXP&issuer=Example&&"
    = ["secret=JBSWY3DPEHPK3PXP"; "issuer=Example"; ""; ""] ∧
  PyStr.join "&" (PyStr.split "&" "secret=JBSWY3DPEHPK3PXP&issuer=Example&&")
    = "secret=JBSWY3DPEHPK3PXP&issuer=Example&&".
Proof.
  assert ("&" ≠ EmptyString) as Hne by discriminate.
  split; [exact Hne|]. split; [reflexivity|].
  exact (proj1 (split_join "&" "secret=JBSWY3DPEHPK3PXP&issuer=Example&&" Hne)).
Defined.

(** X14: the secret the prompt takes out of a provisioning URL has no [&]
    and no [secret=] in it. *)
Theorem url_secret_clean typed secret :
  PyStr.startswith typed "otpauth://" = true →
  effective_secret typed = Some secret →
  PyStr.contains "&" secret = false ∧
  PyStr.contains "secret=" secret = false.
Proof.
  intros Hs. unfold effective_secret.
  destruct (decide (typed = "")); [done|]. rewrite Hs.
  destruct (PyStr.contains "secret=" typed) eqn:Hc.
  - rewrite url_secret_found by done. intros [= <-].
    split; [by apply before_free|].
    destruct (before_is_take "&"
                (PyStr.before "secret=" (PyStr.after "secret=" typed)))
      as [m ->].
    destruct (PyStr.contains "secret=" (PyStr.take m _)) eqn:Hin; [|done].
    apply contains_take in Hin; [|done].
    by rewrite before_free in Hin.
  - by rewrite url_secret_missing.
Qed.

Lemma url_secret_clean_witness :
  PyStr.startswith "otpauth://totp/a?secret=ABsecret=CD&x=1" "otpauth://" = true ∧
  effective_secret "otpauth://totp/a?secret=ABsecret=CD&x=1" = Some "AB" ∧
  PyStr.contains "&" "AB" = false ∧
  PyStr.contains "secret=" "AB" = false.
Proof.
  split; [reflexivity|]. split; [reflexivity|].
  exact (url_secret_clean "otpauth://totp/a?secret=ABsecret=CD&x=1" "AB"
           eq_refl eq_refl).
Defined.

(** ** The services file and the keyring, step by step *)

Lemma stored_with_secret_ne name secret w other :
  other ≠ name → stored (with_secret name secret w) other = stored w other.
Proof. intros Hne. apply lookup_insert_ne. congruence. Qed.

Lemma stored_without_secret_ne name w other :
  other ≠ name → stored (without_secret name w) other = stored w other.
Proof. intros Hne. apply lookup_insert_ne. congruence. Qed.


Lemma elem_of_index_with_secret name secret w other :
  other ∈ index (with_secret name secret w) ↔ other = name ∨ other ∈ index w.
Proof.
  rewrite index_with_secret. case_bool_decide as Hin.
  - split; [by right|]. by intros [->|?].
  - rewrite elem_of_app, list_elem_of_singleton. tauto.
Qed.

Lemma run_keeps_entries env args w :
  listed_have_entries w → listed_have_entries (left (run env args w)).
Proof.
  intros Hinv.
  destruct (run_Ran env args w); simpl; try done; intros other Hin.
  - destruct (decide (other = name)) as [->|Hne].
    + rewrite stored_with_secret. by eexists.
    + rewrite stored_with_secret_ne by done. apply Hinv.
      apply elem_of_index_with_secret in Hin as [?|?]; done.
  - destruct (decide (other = name)) as [->|Hne].
    + rewrite stored_with_secret. by eexists.
    + rewrite stored_with_secret_ne by done. apply Hinv.
      apply elem_of_index_with_secret in Hin as [?|?]; done.
  - destruct (decide (other = name)) as [->|Hne].
    + rewrite stored_without_secret. by eexists.
    + rewrite stored_without_secret_ne by done. apply Hinv.
      rewrite index_without_secret in Hin.
      by apply elem_of_remove_first in Hin.
Qed.


Lemma run_all_keeps (P : World → Prop) :
  (∀ env args w, P w → P (left (run env args w))) →
  ∀ cmds w, P w → P (run_all cmds w).
Proof.
  intros Hstep. induction cmds as [|[env args] cmds IH]; intros w Hw; [done|].
  simpl. by apply IH, Hstep.
Qed.

(** ** Sessions *)

(** X15: no sequence of commands, whatever is typed and however each
    command ends, puts a duplicate into a services file that had none. *)
Theorem session_keeps_NoDup cmds w :
  NoDup (index w) → NoDup (index (run_all cmds w)).
Proof.
  apply (run_all_keeps (λ w, NoDup (index w))).
  intros env args w'. apply run_keeps_NoDup.
Qed.

Lemma session_keeps_NoDup_witness :
  NoDup (index (holding "gitlab" "GEZDGNBVGY3TQOJQ" ["gitlab"])) ∧
  NoDup (index (run_all
                  [(typing "JBSWY3DPEHPK3PXP", cmd Add "github");
                   (typing "MFRGGZDFMZTWQ2LK", cmd Update "github");
                   (typing "MFRGGZDFMZTWQ2LK", cmd Update "gitlab");
                   (typing "", cmd Remove "gitlab")]
                  (holding "gitlab" "GEZDGNBVGY3TQOJQ" ["gitlab"]))).
Proof.
  assert (NoDup (index (holding "gitlab" "GEZDGNBVGY3TQOJQ" ["gitlab"])))
    as Hnd by apply NoDup_singleton.
  exact (conj Hnd (session_keeps_NoDup _ _ Hnd)).
Defined.

(** X16: where every listed name has a keyring entry, it stays so through
    any sequence of commands: remove leaves the entry in place, holding
    the empty string, and nothing else takes an entry away. *)
Theorem session_keeps_entries cmds w :
  listed_have_entries w → listed_have_entries (run_all cmds w).
Proof. apply run_all_keeps. apply run_keeps_entries. Qed.

Lemma session_keeps_entries_witness :
  listed_have_entries fresh ∧
  listed_have_entries
    (run_all [(typing "JBSWY3DPEHPK3PXP", cmd Add "github");
              (typing "", cmd Remove "github")] fresh).
Proof.
  assert (listed_have_entries fresh) as Hf.
  { intros name Hin. simpl in Hin. by apply elem_of_nil in Hin. }
  exact (conj Hf (session_keeps_entries _ _ Hf)).
Defined.




(** ** An empty secret out of a URL *)

(** X19: the check for an empty secret looks at the typed line, not at
    what is taken out of a URL.  A line whose effective secret is empty is
    a provisioning URL; add then goes through, lists the name and stores
    the empty string, so that the service still has no usable secret. *)
Theorem add_empty_url_secret env w name c d :
  effective_secret (typed env) = Some "" →
  truthy (stored w name) = false →
  let o := run env (mkArgs Add (Some name) c d) w in
  PyStr.startswith (typed env) "otpauth://" = true ∧
  ended o = None ∧
  name ∈ index (left o) ∧
  stored (left o) name = Some "" ∧
  truthy (stored (left o) name) = false.
Proof.
  intros He Hk o. subst o. split.
  - unfold effective_secret in He.
    destruct (decide (typed env = "")); [done|].
    destruct (PyStr.startswith (typed env) "otpauth://"); [done|].
    congruence.
  - rewrite (run_add_free _ _ _ _ _ "") by done. simpl.
    split; [done|]. split; [apply listed_with_secret|].
    by rewrite stored_with_secret.
Qed.

Lemma add_empty_url_secret_witness :
  effective_secret (typed (typing "otpauth://totp/Example:alice?secret=&issuer=Example"))
    = Some "" ∧
  truthy (stored fresh "github") = false ∧
  index (left (run (typing "otpauth://totp/Example:alice?secret=&issuer=Example")
                 (cmd Add "github") fresh)) = ["github"] ∧
  stored (left (run (typing "otpauth://totp/Example:alice?secret=&issuer=Example")
                  (cmd Add "github") fresh)) "github" = Some "".
Proof.
  split; [reflexivity|]. split; [reflexivity|].
  destruct (add_empty_url_secret
              (typing "otpauth://totp/Example:alice?secret=&issuer=Example")
              fresh "github" false false eq_refl eq_refl)
    as (_ & _ & _ & Hs & _).
  split; [reflexivity|exact Hs].
Defined.
